(** * Product controller of the e-commerce backend

    A shallow embedding of [backend/src/controllers/productController.js]:
    the five Express handlers [addProduct], [getProducts], [deleteProduct],
    [getProductById] and [updateProduct], over an explicit world made of the
    two in-memory maps of [dataStore] and the upload directory on disk. *)

From Stdlib Require Import ZArith QArith String Ascii DecimalString List Bool Lia.
From Stdlib Require DecimalZ DecimalPos.
From Stdlib.Strings Require Import Byte.
From stdpp Require Import base option gmap strings.

Local Close Scope Q_scope.
Local Open Scope string_scope.
Local Open Scope list_scope.
Local Open Scope Z_scope.

(** ** JavaScript values *)

(** A Number.  Finite values are kept exact as rationals: the controller never
    does arithmetic on a number beyond [products.size + 1], so rounding to a
    double plays no part; [+0] and [-0] are one value (they are the same
    Map key and equally falsy). *)
Inductive JsNum : Type :=
| NaN
| Infinity (negative : bool)
| Fin (q : Q).

(** What a request body, a JSON document or a Map key can hold.  An object
    (or array) is its list of own properties. *)
#[warnings="-register-all"]
Inductive JsVal : Type :=
| JUndefined
| JNull
| JBool (b : bool)
| JNum (n : JsNum)
| JStr (s : string)
| JObject (props : list (string * JsVal)).

(** The exceptions the handlers can meet. *)
Inductive JsError : Type :=
| TypeError
| SyntaxError
| NetworkError
| ENOENT (path : string).

(** ToBoolean: the test behind [if (x)] and [!x]. *)
Definition truthy (v : JsVal) : bool :=
  match v with
  | JUndefined | JNull => false
  | JBool b => b
  | JNum NaN => false
  | JNum (Infinity _) => true
  | JNum (Fin q) => negb (Qnum q =? 0)
  | JStr EmptyString => false
  | JStr (String _ _) => true
  | JObject _ => true
  end.

Definition isNaN (n : JsNum) : bool :=
  match n with NaN => true | _ => false end.

(** The integer a finite number is, if it is one. *)
Definition as_integer (q : Q) : option Z :=
  if Qnum q mod Zpos (Qden q) =? 0 then Some (Qnum q / Zpos (Qden q)) else None.

Definition of_int (z : Z) : JsNum := Fin (inject_Z z).

(** Own-property lookup in a property list. *)
Fixpoint assoc (name : string) (props : list (string * JsVal)) : option JsVal :=
  match props with
  | [] => None
  | (k, v) :: rest => if String.eqb k name then Some v else assoc name rest
  end.

(** ** parseInt *)

(** A string holds the UTF-8 encoding of the JavaScript string, the bytes
    that the path parameter is decoded from, so a character of the JavaScript
    string is one to four bytes here.  The white space that [parseInt] skips
    is ECMAScript's WhiteSpace and LineTerminator (12.2, 12.3): TAB, LF, VT,
    FF, CR and SP in one byte, U+00A0 in two, and U+1680, U+2000 to U+200A,
    U+2028, U+2029, U+202F, U+205F, U+3000 and U+FEFF in three. *)

Definition code_of (c : ascii) : Z := Z.of_N (N_of_ascii c).

Definition is_whitespace (c : ascii) : bool :=
  let n := code_of c in
  ((9 <=? n) && (n <=? 13)) || (n =? 32).

(** The first byte of a white-space character of two or three bytes. *)
Definition is_whitespace_lead (c : ascii) : bool :=
  let n := code_of c in
  (n =? 194) || (n =? 225) || (n =? 226) || (n =? 227) || (n =? 239).

Definition is_whitespace2 (c1 c2 : ascii) : bool :=
  (code_of c1 =? 194) && (code_of c2 =? 160).

Definition is_whitespace3 (c1 c2 c3 : ascii) : bool :=
  let '(n1, n2, n3) := (code_of c1, code_of c2, code_of c3) in
  ((n1 =? 225) && (n2 =? 154) && (n3 =? 128))
  || ((n1 =? 226) && (n2 =? 128)
      && (((128 <=? n3) && (n3 <=? 138))
          || (n3 =? 168) || (n3 =? 169) || (n3 =? 175)))
  || ((n1 =? 226) && (n2 =? 129) && (n3 =? 159))
  || ((n1 =? 227) && (n2 =? 128) && (n3 =? 128))
  || ((n1 =? 239) && (n2 =? 187) && (n3 =? 191)).

Fixpoint trim_start (s : string) : string :=
  match s with
  | String c1 rest1 =>
      if is_whitespace c1 then trim_start rest1
      else if is_whitespace_lead c1 then
        match rest1 with
        | String c2 rest2 =>
            if is_whitespace2 c1 c2 then trim_start rest2
            else
              match rest2 with
              | String c3 rest3 =>
                  if is_whitespace3 c1 c2 c3 then trim_start rest3 else s
              | EmptyString => s
              end
        | EmptyString => s
        end
      else s
  | EmptyString => s
  end.

Definition digit_value (radix : Z) (c : ascii) : option Z :=
  let n := Z.of_N (N_of_ascii c) in
  let d :=
    if (48 <=? n) && (n <=? 57) then Some (n - 48)
    else if (97 <=? n) && (n <=? 122) then Some (n - 87)
    else if (65 <=? n) && (n <=? 90) then Some (n - 55)
    else None in
  match d with
  | Some v => if v <? radix then Some v else None
  | None => None
  end.

(** The value of the longest prefix of radix-[radix] digits, [None] when that
    prefix is empty. *)
Fixpoint parse_digits (radix : Z) (s : string) (acc : option Z) : option Z :=
  match s with
  | EmptyString => acc
  | String c rest =>
      match digit_value radix c with
      | Some d =>
          parse_digits radix rest
            (Some (radix * (match acc with Some a => a | None => 0 end) + d))
      | None => acc
      end
  end.

(** [parseInt(string)] with no radix argument (ECMAScript 19.2.5): leading
    white space is dropped, one sign is read, [0x]/[0X] selects radix 16, and
    the digits that follow are read up to the first character that is not
    one.  The integer read is kept exact; it is the Number that JavaScript's
    [parseInt] returns whenever it is a safe integer, one of magnitude below
    2^53, and JavaScript rounds a larger one to the nearest double. *)
Definition parseInt (input : string) : JsNum :=
  let s := trim_start input in
  let '(sign, s) :=
    match s with
    | String "-" rest => (-1, rest)
    | String "+" rest => (1, rest)
    | _ => (1, s)
    end in
  let '(radix, s) :=
    match s with
    | String "0" (String "x" rest) => (16, rest)
    | String "0" (String "X" rest) => (16, rest)
    | _ => (10, s)
    end in
  match parse_digits radix s None with
  | None => NaN
  | Some mathInt => of_int (sign * mathInt)
  end.

(** ** Buffer.toString('base64') *)

Definition b64_char (i : Z) : ascii :=
  ascii_of_N (Z.to_N
    (if i <? 26 then i + 65
     else if i <? 52 then i + 71
     else if i <? 62 then i - 4
     else if i =? 62 then 43
     else 47)).

Definition b64_index (c : ascii) : option Z :=
  let n := Z.of_N (N_of_ascii c) in
  if (65 <=? n) && (n <=? 90) then Some (n - 65)
  else if (97 <=? n) && (n <=? 122) then Some (n - 71)
  else if (48 <=? n) && (n <=? 57) then Some (n + 4)
  else if n =? 43 then Some 62
  else if n =? 47 then Some 63
  else None.

Definition byte_val (b : byte) : Z := Z.of_N (Byte.to_N b).

Definition byte_of (z : Z) : option byte := Byte.of_N (Z.to_N z).

(** Three bytes become four characters; a tail of one or two bytes is padded
    with [=]. *)
Fixpoint base64 (buffer : list byte) : string :=
  match buffer with
  | [] => EmptyString
  | [a] =>
      let a := byte_val a in
      String (b64_char (a / 4)) (String (b64_char (a mod 4 * 16)) "==")
  | [a; b] =>
      let a := byte_val a in
      let b := byte_val b in
      String (b64_char (a / 4))
        (String (b64_char (a mod 4 * 16 + b / 16))
           (String (b64_char (b mod 16 * 4)) "="))
  | a :: b :: c :: rest =>
      let a := byte_val a in
      let b := byte_val b in
      let c := byte_val c in
      String (b64_char (a / 4))
        (String (b64_char (a mod 4 * 16 + b / 16))
           (String (b64_char (b mod 16 * 4 + c / 64))
              (String (b64_char (c mod 64)) (base64 rest))))
  end.

Definition pad : ascii := "="%char.

Definition is_pad (c : ascii) : bool := Ascii.eqb c pad.

(** The decoder of a client that reads the payload back. *)
Fixpoint base64_decode (s : string) : option (list byte) :=
  match s with
  | EmptyString => Some []
  | String c1 (String c2 (String c3 (String c4 rest))) =>
      match b64_index c1, b64_index c2 with
      | Some i1, Some i2 =>
          match byte_of (i1 * 4 + i2 / 16) with
          | None => None
          | Some a =>
              if is_pad c3 then
                match rest with
                | EmptyString => if is_pad c4 then Some [a] else None
                | _ => None
                end
              else
                match b64_index c3 with
                | None => None
                | Some i3 =>
                    match byte_of (i2 mod 16 * 16 + i3 / 4) with
                    | None => None
                    | Some b =>
                        if is_pad c4 then
                          match rest with
                          | EmptyString => Some [a; b]
                          | _ => None
                          end
                        else
                          match b64_index c4 with
                          | None => None
                          | Some i4 =>
                              match byte_of (i3 mod 4 * 64 + i4),
                                    base64_decode rest with
                              | Some c, Some tail => Some (a :: b :: c :: tail)
                              | _, _ => None
                              end
                          end
                    end
                end
          end
      | _, _ => None
      end
  | _ => None
  end.

(** ** The Map of [dataStore.products] *)

(** A JavaScript [Map] keeps its entries in insertion order, one per key;
    [set] on a key that is present replaces the value where it stands. *)
Module JsMap.

Definition t (V : Type) : Type := list (Z * V).

Definition empty {V : Type} : t V := [].

Fixpoint get {V : Type} (k : Z) (m : t V) : option V :=
  match m with
  | [] => None
  | (k', v) :: rest => if k' =? k then Some v else get k rest
  end.

Fixpoint set {V : Type} (k : Z) (v : V) (m : t V) : t V :=
  match m with
  | [] => [(k, v)]
  | (k', v') :: rest =>
      if k' =? k then (k, v) :: rest else (k', v') :: set k v rest
  end.

Fixpoint delete {V : Type} (k : Z) (m : t V) : t V :=
  match m with
  | [] => []
  | (k', v') :: rest =>
      if k' =? k then delete k rest else (k', v') :: delete k rest
  end.

Definition size {V : Type} (m : t V) : Z := Z.of_nat (length m).

Definition keys {V : Type} (m : t V) : list Z := map fst m.

Definition values {V : Type} (m : t V) : list V := map snd m.

(** One entry per key. *)
Definition wf {V : Type} (m : t V) : Prop := NoDup (keys m).

End JsMap.

(** ** Data model *)

Record Product : Type := {
  id : Z;
  name : JsVal;
  description : JsVal;
  price : JsVal;
  quantity : JsVal;
  imageUrl : string;
  imageLink : option JsVal
}.

Definition set_name (v : JsVal) (p : Product) : Product :=
  {| id := id p; name := v; description := description p; price := price p;
     quantity := quantity p; imageUrl := imageUrl p; imageLink := imageLink p |}.

Definition set_description (v : JsVal) (p : Product) : Product :=
  {| id := id p; name := name p; description := v; price := price p;
     quantity := quantity p; imageUrl := imageUrl p; imageLink := imageLink p |}.

Definition set_price (v : JsVal) (p : Product) : Product :=
  {| id := id p; name := name p; description := description p; price := v;
     quantity := quantity p; imageUrl := imageUrl p; imageLink := imageLink p |}.

Definition set_quantity (v : JsVal) (p : Product) : Product :=
  {| id := id p; name := name p; description := description p; price := price p;
     quantity := v; imageUrl := imageUrl p; imageLink := imageLink p |}.

Definition set_imageUrl (path : string) (p : Product) : Product :=
  {| id := id p; name := name p; description := description p; price := price p;
     quantity := quantity p; imageUrl := path; imageLink := imageLink p |}.

(** [delete productWithoutImageLink.imageLink] on a copy of the record. *)
Definition delete_imageLink (p : Product) : Product :=
  {| id := id p; name := name p; description := description p; price := price p;
     quantity := quantity p; imageUrl := imageUrl p; imageLink := None |}.

(** Modelled from the spec: [dataStore] is required by the controller and is
    not among the sources.  Section 2 gives its two maps: products from a
    numeric ID to a product record, users from an opaque token to a user
    record with an admin-flag predicate. *)
Record User : Type := {
  token : string;
  isAdmin : bool
}.

(** [req.file] as multer leaves it. *)
Record File : Type := {
  filename : string
}.

Record Request : Type := {
  authorization : JsVal;
  body : JsVal;
  file : option File;
  params_id : string
}.

(** A product with its image read back, as the two read handlers send it. *)
Record ProductWithImage : Type := {
  product : Product;
  image : string
}.

Inductive Payload : Type :=
| Text (message : string)
| ProductJson (p : Product)
| ProductWithImageJson (p : ProductWithImage)
| ProductArrayJson (ps : list ProductWithImage).

Record Response : Type := {
  status : Z;
  sent : Payload
}.

(** What the awaited [fetch] of the identity endpoint gives: a rejected
    promise, or a response with its status and its body as [json()] parses it
    ([None] when the body is not JSON). *)
Inductive FetchResult : Type :=
| FetchRejected
| FetchResolved (fetch_status : Z) (fetch_json : option JsVal).

(** The state the handlers share: the two maps and the files on disk, each
    file under the path string the controller uses for it. *)
Record World : Type := {
  products : JsMap.t Product;
  users : gmap string User;
  fs : gmap string (list byte)
}.

Definition with_products (m : JsMap.t Product) (w : World) : World :=
  {| products := m; users := users w; fs := fs w |}.

Definition with_fs (f : gmap string (list byte)) (w : World) : World :=
  {| products := products w; users := users w; fs := f |}.

(** ** Control flow of a handler *)

(** A statement completes normally, or the handler has sent its response
    ([res.status(..).send(..)], after which no handler does anything more), or
    an exception is on its way up. *)
Inductive Completion (A : Type) : Type :=
| Normal (a : A)
| Responded (r : Response)
| Thrown (e : JsError).

Arguments Normal {A} a.
Arguments Responded {A} r.
Arguments Thrown {A} e.

Definition Exec (A : Type) : Type := World -> Completion A * World.

Definition ret {A : Type} (a : A) : Exec A := fun w => (Normal a, w).

Definition bind {A B : Type} (m : Exec A) (k : A -> Exec B) : Exec B :=
  fun w =>
    match m w with
    | (Normal a, w') => k a w'
    | (Responded r, w') => (Responded r, w')
    | (Thrown e, w') => (Thrown e, w')
    end.

Definition throw {A : Type} (e : JsError) : Exec A := fun w => (Thrown e, w).

Definition send {A : Type} (code : Z) (p : Payload) : Exec A :=
  fun w => (Responded {| status := code; sent := p |}, w).

Definition try_catch {A : Type} (m : Exec A) (h : JsError -> Exec A) : Exec A :=
  fun w =>
    match m w with
    | (Thrown e, w') => h e w'
    | done => done
    end.

Definition when (c : bool) (m : Exec unit) : Exec unit :=
  if c then m else ret tt.

Notation "'let*' x ':=' m 'in' k" := (bind m (fun x => k))
  (at level 10, x name, m at level 100, k at level 200).

Notation "m ';;;' k" := (bind m (fun _ => k))
  (at level 100, k at level 200, right associativity).

(** [array.map(f)] with a callback that may throw. *)
Fixpoint map_exec {A B : Type} (f : A -> Exec B) (l : list A) : Exec (list B) :=
  match l with
  | [] => ret []
  | x :: rest =>
      let* y := f x in
      let* ys := map_exec f rest in
      ret (y :: ys)
  end.

(** What Express sees of a handler: the response it sent, or the exception
    that left it. *)
Inductive Outcome : Type :=
| Sent (r : Response)
| Uncaught (e : JsError).

Definition handle (m : Exec Empty_set) (w : World) : Outcome * World :=
  match m w with
  | (Normal a, _) => match a with end
  | (Responded r, w') => (Sent r, w')
  | (Thrown e, w') => (Uncaught e, w')
  end.

(** ** Primitive operations on the world *)

(** [o.prop]: reading a property of [undefined] or [null] throws ([None]
    here), a primitive has none of the properties the controller reads, and an
    object answers with its own property or [undefined]. *)
Definition property (o : JsVal) (prop : string) : option JsVal :=
  match o with
  | JUndefined | JNull => None
  | JObject props =>
      Some (match assoc prop props with Some v => v | None => JUndefined end)
  | _ => Some JUndefined
  end.

Definition get (o : JsVal) (prop : string) : Exec JsVal :=
  match property o prop with
  | Some v => ret v
  | None => throw TypeError
  end.

(** The key of [products] a value is the same as (SameValueZero): keys are
    integers, so only a number that is an integer names one. *)
Definition key_of (v : JsVal) : option Z :=
  match v with
  | JNum (Fin q) => as_integer q
  | _ => None
  end.

(** [products.get(key)]: the stored object, as the key it sits under and its
    fields. *)
Definition lookup_product (m : JsMap.t Product) (key : JsVal) : option (Z * Product) :=
  match key_of key with
  | Some k =>
      match JsMap.get k m with
      | Some p => Some (k, p)
      | None => None
      end
  | None => None
  end.

Definition products_get (key : JsVal) : Exec (option (Z * Product)) :=
  fun w => (Normal (lookup_product (products w) key), w).

Definition products_size : Exec Z :=
  fun w => (Normal (JsMap.size (products w)), w).

Definition products_set (k : Z) (p : Product) : Exec unit :=
  fun w => (Normal tt, with_products (JsMap.set k p (products w)) w).

Definition products_delete (key : JsVal) : Exec unit :=
  fun w =>
    match key_of key with
    | Some k => (Normal tt, with_products (JsMap.delete k (products w)) w)
    | None => (Normal tt, w)
    end.

Definition products_values : Exec (list Product) :=
  fun w => (Normal (JsMap.values (products w)), w).

(** [product.field = v] on an object of the store: the object is shared with
    the Map, so the Map sees the write at once. *)
Definition assign (obj : Z * Product) (f : Product -> Product) : Exec (Z * Product) :=
  fun w =>
    (Normal (fst obj, f (snd obj)),
     with_products (JsMap.set (fst obj) (f (snd obj)) (products w)) w).

(** [users.get(token)]: the keys are token strings. *)
Definition lookup_user (m : gmap string User) (key : JsVal) : option User :=
  match key with
  | JStr s => m !! s
  | _ => None
  end.

Definition users_get (key : JsVal) : Exec (option User) :=
  fun w => (Normal (lookup_user (users w) key), w).

(** [user.isAdmin()] *)
Definition call_isAdmin (user : option User) : Exec bool :=
  match user with
  | Some u => ret (isAdmin u)
  | None => throw TypeError
  end.

Definition readFileSync (path : string) : Exec (list byte) :=
  fun w =>
    match fs w !! path with
    | Some content => (Normal content, w)
    | None => (Thrown (ENOENT path), w)
    end.

Definition unlinkSync (path : string) : Exec unit :=
  fun w =>
    match fs w !! path with
    | Some _ => (Normal tt, with_fs (base.delete path (fs w)) w)
    | None => (Thrown (ENOENT path), w)
    end.

(** The callback [getProducts] maps over the products. *)
Definition read_back (product : Product) : Exec ProductWithImage :=
  let* imageBuffer := readFileSync (imageUrl product) in
  let imageBase64 := base64 imageBuffer in
  let productWithoutImageLink := delete_imageLink product in
  ret {| product := productWithoutImageLink; image := imageBase64 |}.

(** ** The handlers *)

Section Controller.

(** The identity service behind [http://localhost:3000/whoami], as a function
    of the [Authorization] header it is sent. *)
Variable whoami : JsVal -> FetchResult.

(** ECMAScript's StringToNumber, and ToNumber of an object ([None] when the
    conversion throws): [Number(productId)] is taken as the language gives it. *)
Variable StringToNumber : string -> JsNum.
Variable ObjectToNumber : list (string * JsVal) -> option JsNum.

(** [await fetch('http://localhost:3000/whoami', {headers: {Authorization}})] *)
Definition fetch (header : JsVal) : Exec (Z * option JsVal) :=
  match whoami header with
  | FetchRejected => throw NetworkError
  | FetchResolved code parsed => ret (code, parsed)
  end.

(** [await whoamiResponse.json()] *)
Definition json (response : Z * option JsVal) : Exec JsVal :=
  match snd response with
  | Some v => ret v
  | None => throw SyntaxError
  end.

(** [Number(v)]; [None] when the conversion throws. *)
Definition ToNumber (v : JsVal) : option JsNum :=
  match v with
  | JUndefined => Some NaN
  | JNull => Some (of_int 0)
  | JBool b => Some (of_int (if b then 1 else 0))
  | JNum n => Some n
  | JStr s => Some (StringToNumber s)
  | JObject props => ObjectToNumber props
  end.

Definition Number (v : JsVal) : Exec JsNum :=
  match ToNumber v with
  | Some n => ret n
  | None => throw TypeError
  end.

Definition addProduct (req : Request) : World -> Outcome * World :=
  handle (try_catch
    (let* whoamiResponse := fetch (authorization req) in
     when (negb (fst whoamiResponse =? 200))
       (send 401 (Text "Token inválido o usuario no autenticado")) ;;;
     let* userData := json whoamiResponse in
     let* token := get userData "token" in
     let* user := users_get token in
     let* admin := call_isAdmin user in
     when (negb admin)
       (send 403 (Text "No tiene permisos para agregar productos")) ;;;
     let* name := get (body req) "name" in
     let* description := get (body req) "description" in
     let* price := get (body req) "price" in
     let* quantity := get (body req) "quantity" in
     (* [!name || !description || !price || !quantity || !image] *)
     match file req with
     | None => send 400 (Text "Todos los campos son obligatorios")
     | Some image =>
         if negb (truthy name) || negb (truthy description)
            || negb (truthy price) || negb (truthy quantity)
         then send 400 (Text "Todos los campos son obligatorios")
         else
           let* size := products_size in
           let newProductId := size + 1 in
           let newProduct :=
             {| id := newProductId;
                name := name;
                description := description;
                price := price;
                quantity := quantity;
                imageUrl := "src/uploads/" +:+ filename image;
                imageLink := None |} in
           products_set newProductId newProduct ;;;
           send 201 (ProductJson newProduct)
     end)
    (fun error => send 500 (Text "Error interno del servidor"))).

Definition getProducts (req : Request) : World -> Outcome * World :=
  handle
    (let* all := products_values in
     let* productsArray := map_exec read_back all in
     send 200 (ProductArrayJson productsArray)).

Definition deleteProduct (req : Request) : World -> Outcome * World :=
  handle (try_catch
    (let* whoamiResponse := fetch (authorization req) in
     when (negb (fst whoamiResponse =? 200))
       (send 401 (Text "Token inválido o usuario no autenticado")) ;;;
     let* userData := json whoamiResponse in
     let* token := get userData "token" in
     let* user := users_get token in
     let* admin := call_isAdmin user in
     when (negb admin)
       (send 403 (Text "No tiene permisos para eliminar productos")) ;;;
     let* productId := get (body req) "productId" in
     when (negb (truthy productId))
       (send 400 (Text "ID de producto no válido")) ;;;
     let* product := products_get productId in
     match product with
     | None => send 404 (Text "Producto no encontrado")
     | Some _ =>
         products_delete productId ;;;
         send 200 (Text "Producto eliminado correctamente")
     end)
    (fun error => send 500 (Text "Error interno del servidor"))).

Definition getProductById (req : Request) : World -> Outcome * World :=
  handle
    (let productId := parseInt (params_id req) in
     if isNaN productId then send 400 (Text "ID de producto no válido")
     else
       let* product := products_get (JNum productId) in
       match product with
       | None => send 404 (Text "Producto no encontrado")
       | Some (_, product) =>
           let* imageBuffer := readFileSync (imageUrl product) in
           let imageBase64 := base64 imageBuffer in
           let productWithImage :=
             {| product := product; image := imageBase64 |} in
           send 200 (ProductWithImageJson productWithImage)
       end).

Definition updateProduct (req : Request) : World -> Outcome * World :=
  handle (try_catch
    (let* whoamiResponse := fetch (authorization req) in
     when (negb (fst whoamiResponse =? 200))
       (send 401 (Text "Token inválido o usuario no autenticado")) ;;;
     let* userData := json whoamiResponse in
     let* token := get userData "token" in
     let* user := users_get token in
     let* admin := call_isAdmin user in
     when (negb admin)
       (send 403 (Text "No tiene permisos para actualizar productos")) ;;;
     let* productId := get (body req) "productId" in
     let* key := Number productId in
     let* product := products_get (JNum key) in
     match product with
     | None => send 404 (Text "Producto no encontrado")
     | Some product =>
         let* name := get (body req) "name" in
         let* product :=
           if truthy name then assign product (set_name name)
           else ret product in
         let* description := get (body req) "description" in
         let* product :=
           if truthy description then assign product (set_description description)
           else ret product in
         let* price := get (body req) "price" in
         let* product :=
           if truthy price then assign product (set_price price)
           else ret product in
         let* quantity := get (body req) "quantity" in
         let* product :=
           if truthy quantity then assign product (set_quantity quantity)
           else ret product in
         let* product :=
           match file req with
           | Some image =>
               let imagePath := "src/uploads/" +:+ filename image in
               unlinkSync (imageUrl (snd product)) ;;;
               assign product (set_imageUrl imagePath)
           | None => ret product
           end in
         send 200 (ProductJson (snd product))
     end)
    (fun error => send 500 (Text "Error interno del servidor"))).

(** The caller of [req] passed the identity check and its token is the key of
    the user [u]. *)
Definition authenticated_as (req : Request) (w : World) (u : User) : Prop :=
  exists userData tok,
    whoami (authorization req) = FetchResolved 200 (Some userData)
    /\ property userData "token" = Some tok
    /\ lookup_user (users w) tok = Some u.

Definition admin_request (req : Request) (w : World) : Prop :=
  exists u, authenticated_as req w u /\ isAdmin u = true.

End Controller.

(** ** Image Storage *)

(** [Date.now() + path.extname(file.originalname)], lines 10 to 12: the clock
    in decimal followed by the extension [path.extname] found. *)
Definition storage_filename (now : Z) (ext : string) : string :=
  NilZero.string_of_int (Z.to_int now) +:+ ext.

(** Modelled from the spec: multer's disk engine and the route that installs
    [upload] are not among the sources.  Section 4.3: the uploaded file is
    persisted under the fixed upload directory, named by the [filename]
    callback, before the handler runs with [req.file] set. *)
Definition store_upload (now : Z) (ext : string) (content : list byte)
    (w : World) : File * World :=
  let stored := storage_filename now ext in
  ({| filename := stored |},
   with_fs (<["src/uploads/" +:+ stored := content]> (fs w)) w).

(** ** Vocabulary of the properties *)

(** Every key of the product map is positive, as the IDs [addProduct] hands
    out are. *)
Definition ids_positive (m : JsMap.t Product) : Prop :=
  Forall (fun k => 0 < k) (JsMap.keys m).

(** A valid integer, in the words of the specification: an optional minus
    sign and one or more decimal digits, as the Standard Library reads them. *)
Definition valid_integer (s : string) : option Z :=
  match NilZero.int_of_string s with
  | Some d => Some (Z.of_int d)
  | None => None
  end.



Definition status_of (o : Outcome) : option Z :=
  match o with
  | Sent r => Some (status r)
  | Uncaught _ => None
  end.

(** The record [addProduct] builds from a request. *)
Definition new_product (m : JsMap.t Product) (name description price quantity : JsVal)
    (image : File) : Product :=
  {| id := JsMap.size m + 1;
     name := name;
     description := description;
     price := price;
     quantity := quantity;
     imageUrl := "src/uploads/" +:+ filename image;
     imageLink := None |}.

(** The fields of a product after the four guarded assignments. *)
Definition overwrite (vname vdescription vprice vquantity : JsVal) (p : Product) : Product :=
  let p := if truthy vname then set_name vname p else p in
  let p := if truthy vdescription then set_description vdescription p else p in
  let p := if truthy vprice then set_price vprice p else p in
  if truthy vquantity then set_quantity vquantity p else p.

(** A product as [getProducts] sends it when its image file holds [content]. *)
Definition with_image (p : Product) (content : list byte) : ProductWithImage :=
  {| product := delete_imageLink p; image := base64 content |}.

(** One entry per key, and every key positive. *)
Definition store_ok (m : JsMap.t Product) : Prop :=
  JsMap.wf m /\ ids_positive m.

(** The number a decimal numeral writes, read left to right. *)
Fixpoint horner (u : Decimal.uint) (acc : Z) : Z :=
  match u with
  | Decimal.Nil => acc
  | Decimal.D0 u => horner u (10 * acc + 0)
  | Decimal.D1 u => horner u (10 * acc + 1)
  | Decimal.D2 u => horner u (10 * acc + 2)
  | Decimal.D3 u => horner u (10 * acc + 3)
  | Decimal.D4 u => horner u (10 * acc + 4)
  | Decimal.D5 u => horner u (10 * acc + 5)
  | Decimal.D6 u => horner u (10 * acc + 6)
  | Decimal.D7 u => horner u (10 * acc + 7)
  | Decimal.D8 u => horner u (10 * acc + 8)
  | Decimal.D9 u => horner u (10 * acc + 9)
  end.

(** ** A running shop *)

(** An identity service with three callers, a user map that knows two of
    them, and an empty catalogue with one upload on disk. *)
Module Demo.

Definition whoami (header : JsVal) : FetchResult :=
  match header with
  | JStr "Bearer admin" =>
      FetchResolved 200 (Some (JObject [("token", JStr "t-admin")]))
  | JStr "Bearer shopper" =>
      FetchResolved 200 (Some (JObject [("token", JStr "t-shopper")]))
  | JStr "Bearer stale" =>
      FetchResolved 200 (Some (JObject [("token", JStr "t-stale")]))
  | _ => FetchResolved 401 None
  end.

(** The requests below send their productId as a number, so [Number] never
    consults the conversion of a string or of an object; these fill the two
    parameters. *)
Definition StringToNumber (s : string) : JsNum := NaN.

Definition ObjectToNumber (props : list (string * JsVal)) : option JsNum := None.

Definition admin : User := {| token := "t-admin"; isAdmin := true |}.

Definition shopper : User := {| token := "t-shopper"; isAdmin := false |}.

Definition registered : gmap string User :=
  <["t-admin" := admin]> (<["t-shopper" := shopper]> ∅).

Definition empty_shop : World :=
  {| products := JsMap.empty; users := registered; fs := ∅ |}.

(** The bytes of "Man". *)
Definition picture : list byte := [x4d; x61; x6e].

Definition request (header : JsVal) (fields : list (string * JsVal))
    (upload : option File) : Request :=
  {| authorization := header; body := JObject fields; file := upload;
     params_id := "" |}.

Definition lookup (id : string) : Request :=
  {| authorization := JUndefined; body := JUndefined; file := None;
     params_id := id |}.

Definition widget : list (string * JsVal) :=
  [("name", JStr "Widget"); ("description", JStr "A widget");
   ("price", JStr "10"); ("quantity", JStr "5")].

Definition gadget : list (string * JsVal) :=
  [("name", JStr "Gadget"); ("description", JStr "A gadget");
   ("price", JStr "20"); ("quantity", JStr "1")].

Definition gizmo : list (string * JsVal) :=
  [("name", JStr "Gizmo"); ("description", JStr "A gizmo");
   ("price", JStr "30"); ("quantity", JStr "2")].

(** The shop after multer stored [content] at clock [now]. *)
Definition uploaded (now : Z) (content : list byte) (w : World) : File * World :=
  store_upload now ".png" content w.

(** One product, the widget, with its picture on disk. *)
Definition one_widget : World :=
  let '(image, w) := uploaded 1700000000001 picture empty_shop in
  snd (addProduct whoami (request (JStr "Bearer admin") widget (Some image)) w).

Definition admin_header : JsVal := JStr "Bearer admin".

Definition gadget_record : Product :=
  {| id := 2; name := JStr "Gadget"; description := JStr "A gadget";
     price := JStr "20"; quantity := JStr "1";
     imageUrl := "src/uploads/1700000000002.png"; imageLink := None |}.

Definition widget_record : Product :=
  {| id := 1; name := JStr "Widget"; description := JStr "A widget";
     price := JStr "10"; quantity := JStr "5";
     imageUrl := "src/uploads/1700000000001.png"; imageLink := None |}.

(** The empty shop after an upload of [content] as [1700000000001.png]. *)
Definition with_upload (content : list byte) : World :=
  snd (uploaded 1700000000001 content empty_shop).

Definition first_image : File := {| filename := "1700000000001.png" |}.

End Demo.

(** ** Runs of requests *)

(** One thing that happens to the server: a request to one of the five
    exported handlers, or a change made to the disk from outside them (multer
    storing an upload, for one). *)
Inductive Call : Type :=
| AddProduct (req : Request)
| GetProducts (req : Request)
| DeleteProduct (req : Request)
| GetProductById (req : Request)
| UpdateProduct (req : Request)
| Disk (change : gmap string (list byte) -> gmap string (list byte)).

Section Runs.

Variable whoami : JsVal -> FetchResult.
Variable StringToNumber : string -> JsNum.
Variable ObjectToNumber : list (string * JsVal) -> option JsNum.

(** The world after one call. *)
Definition after (c : Call) (w : World) : World :=
  match c with
  | AddProduct req => snd (addProduct whoami req w)
  | GetProducts req => snd (getProducts req w)
  | DeleteProduct req => snd (deleteProduct whoami req w)
  | GetProductById req => snd (getProductById req w)
  | UpdateProduct req =>
      snd (updateProduct whoami StringToNumber ObjectToNumber req w)
  | Disk change => with_fs (change (fs w)) w
  end.

(** The world after a run of calls, first to last. *)
Definition run (cs : list Call) (w : World) : World :=
  fold_left (fun w c => after c w) cs w.

End Runs.

(** The answers that turn a caller away or report a failure. *)
Definition refused (o : Outcome) : Prop :=
  status_of o = Some 401 \/ status_of o = Some 403 \/ status_of o = Some 500.

(** Every stored record carries the key it is stored under as its [id]. *)
Definition ids_match (m : JsMap.t Product) : Prop :=
  Forall (fun kp => id (snd kp) = fst kp) m.

(** The keys are 1, 2, ..., n in this order: the catalogue [n] additions and
    no deletion leave. *)
Definition dense (n : nat) (m : JsMap.t Product) : Prop :=
  JsMap.keys m = map Z.of_nat (seq 1 n).

(** * Facts *)

(** ** The Map *)

Section MapFacts.

Context {V : Type}.
Implicit Types (m : JsMap.t V) (k : Z) (v : V).

Lemma get_set_same m k v : JsMap.get k (JsMap.set k v m) = Some v.
Proof.
  induction m as [|[k' v'] m IH]; simpl.
  - now rewrite Z.eqb_refl.
  - destruct (k' =? k) eqn:E; simpl; rewrite ?Z.eqb_refl, ?E; auto.
Qed.

Lemma get_set_other m k k' v :
  k <> k' -> JsMap.get k' (JsMap.set k v m) = JsMap.get k' m.
Proof.
  intros Hne. induction m as [|[k0 v0] m IH]; simpl.
  - destruct (k =? k') eqn:E; auto. apply Z.eqb_eq in E. contradiction.
  - destruct (k0 =? k) eqn:E; simpl.
    + apply Z.eqb_eq in E. subst k0.
      destruct (k =? k') eqn:E'; auto. apply Z.eqb_eq in E'. contradiction.
    + now rewrite IH.
Qed.

Lemma get_delete_same m k : JsMap.get k (JsMap.delete k m) = None.
Proof.
  induction m as [|[k' v'] m IH]; simpl; auto.
  destruct (k' =? k) eqn:E; simpl; rewrite ?E; auto.
Qed.

Lemma get_delete_other m k k' :
  k <> k' -> JsMap.get k' (JsMap.delete k m) = JsMap.get k' m.
Proof.
  intros Hne. induction m as [|[k0 v0] m IH]; simpl; auto.
  destruct (k0 =? k) eqn:E; simpl.
  - apply Z.eqb_eq in E. subst k0.
    destruct (k =? k') eqn:E'; auto. apply Z.eqb_eq in E'. contradiction.
  - now rewrite IH.
Qed.

Lemma set_set m k v v' : JsMap.set k v (JsMap.set k v' m) = JsMap.set k v m.
Proof.
  induction m as [|[k0 v0] m IH]; simpl.
  - now rewrite Z.eqb_refl.
  - destruct (k0 =? k) eqn:E; simpl; rewrite ?Z.eqb_refl, ?E; auto.
    now rewrite IH.
Qed.

Lemma set_get_id m k v : JsMap.get k m = Some v -> JsMap.set k v m = m.
Proof.
  induction m as [|[k0 v0] m IH]; simpl; [discriminate|].
  destruct (k0 =? k) eqn:E.
  - apply Z.eqb_eq in E. intros [= ->]. now subst.
  - intros H. now rewrite IH.
Qed.

Lemma get_none_not_key m k : JsMap.get k m = None <-> k ∉ JsMap.keys m.
Proof.
  induction m as [|[k' v'] m IH]; simpl.
  - split; auto. intros _. apply not_elem_of_nil.
  - rewrite not_elem_of_cons. destruct (k' =? k) eqn:E.
    + apply Z.eqb_eq in E. split; [discriminate | intros [? _]; congruence].
    + apply Z.eqb_neq in E. rewrite IH. split; [split; auto | tauto].
Qed.

Lemma delete_absent m k : JsMap.get k m = None -> JsMap.delete k m = m.
Proof.
  induction m as [|[k' v'] m IH]; simpl; auto.
  destruct (k' =? k); [discriminate|]. intros H. now rewrite IH.
Qed.

Lemma keys_set_present m k v :
  JsMap.get k m <> None -> JsMap.keys (JsMap.set k v m) = JsMap.keys m.
Proof.
  induction m as [|[k' v'] m IH]; simpl; [congruence|].
  destruct (k' =? k) eqn:E; simpl.
  - apply Z.eqb_eq in E. now subst.
  - intros H. now rewrite IH.
Qed.

Lemma keys_set_fresh m k v :
  JsMap.get k m = None -> JsMap.keys (JsMap.set k v m) = JsMap.keys m ++ [k].
Proof.
  induction m as [|[k' v'] m IH]; simpl; auto.
  destruct (k' =? k); [discriminate|]. intros H. simpl. now rewrite IH.
Qed.

Lemma size_set_fresh m k v :
  JsMap.get k m = None -> JsMap.size (JsMap.set k v m) = JsMap.size m + 1.
Proof.
  intros H. unfold JsMap.size.
  assert (E : length (JsMap.set k v m) = length (JsMap.keys (JsMap.set k v m)))
    by (unfold JsMap.keys; now rewrite length_map).
  rewrite E, (keys_set_fresh _ _ _ H), length_app. unfold JsMap.keys.
  rewrite length_map. simpl. lia.
Qed.

Lemma size_set_present m k v :
  JsMap.get k m <> None -> JsMap.size (JsMap.set k v m) = JsMap.size m.
Proof.
  intros H. unfold JsMap.size.
  assert (E : forall m', length m' = length (JsMap.keys m'))
    by (intros; unfold JsMap.keys; now rewrite length_map).
  now rewrite (E (JsMap.set k v m)), (keys_set_present _ _ _ H), <- E.
Qed.

Lemma keys_delete_subset m k x :
  x ∈ JsMap.keys (JsMap.delete k m) -> x ∈ JsMap.keys m.
Proof.
  induction m as [|[k' v'] m IH]; simpl; auto.
  destruct (k' =? k); simpl; rewrite ?elem_of_cons; intuition.
Qed.

Lemma wf_set m k v : JsMap.wf m -> JsMap.wf (JsMap.set k v m).
Proof.
  unfold JsMap.wf. intros H.
  destruct (JsMap.get k m) eqn:E.
  - rewrite keys_set_present; [assumption | congruence].
  - rewrite keys_set_fresh by assumption.
    apply NoDup_app. repeat split; auto.
    + intros x Hx Hx'. apply list_elem_of_singleton in Hx'. subst x.
      now apply get_none_not_key in E.
    + apply NoDup_singleton.
Qed.

Lemma wf_delete m k : JsMap.wf m -> JsMap.wf (JsMap.delete k m).
Proof.
  unfold JsMap.wf.
  induction m as [|[k' v'] m IH]; simpl; auto.
  rewrite NoDup_cons. intros [Hk Hm].
  destruct (k' =? k); simpl; auto.
  rewrite NoDup_cons. split; auto.
  intros Hin. apply Hk. eapply keys_delete_subset, Hin.
Qed.

End MapFacts.

(** ** parseInt on decimal numerals *)

Lemma parse_digits_uint (u : Decimal.uint) (acc : Z) :
  parse_digits 10 (NilEmpty.string_of_uint u) (Some acc) = Some (horner u acc).
Proof.
  revert acc.
  induction u; intros acc;
    cbn [NilEmpty.string_of_uint parse_digits horner]; auto;
    match goal with
    | |- context [digit_value 10 ?c] =>
        change (digit_value 10 c) with (Some (Z.of_N (N_of_ascii c) - 48))
    end;
    cbn [N_of_ascii]; simpl Z.sub; apply IHu.
Qed.

Lemma horner_of_uint_acc (u : Decimal.uint) (p : positive) :
  Z.pos (Pos.of_uint_acc u p) = horner u (Z.pos p).
Proof.
  revert p.
  induction u; intros p; cbn [Pos.of_uint_acc horner]; auto;
    rewrite IHu; f_equal; lia.
Qed.

Lemma horner_of_uint (u : Decimal.uint) : Z.of_uint u = horner u 0.
Proof.
  unfold Z.of_uint.
  induction u; cbn [Pos.of_uint horner Z.of_N];
    rewrite ?horner_of_uint_acc; simpl (10 * 0 + _); auto.
Qed.

Lemma parseInt_uint (u : Decimal.uint) :
  u <> Decimal.Nil ->
  parseInt (NilEmpty.string_of_uint u) = of_int (Z.of_uint u)
  /\ parseInt (String "-" (NilEmpty.string_of_uint u)) = of_int (- Z.of_uint u).
Proof.
  intros Hu. rewrite horner_of_uint.
  assert (H : forall sign,
    match parse_digits 10 (NilEmpty.string_of_uint u) None with
    | None => NaN
    | Some mathInt => of_int (sign * mathInt)
    end = of_int (sign * horner u 0)).
  { intros sign. destruct u; try contradiction;
      cbn [NilEmpty.string_of_uint parse_digits horner];
      match goal with
      | |- context [digit_value 10 ?c] =>
          change (digit_value 10 c) with (Some (Z.of_N (N_of_ascii c) - 48))
      end;
      cbn [N_of_ascii]; simpl Z.sub; now rewrite parse_digits_uint. }
  replace (- horner u 0) with (-1 * horner u 0) by lia.
  replace (of_int (horner u 0)) with (of_int (1 * horner u 0)) by (f_equal; lia).
  rewrite <- !H.
  destruct u as [|u|u|u|u|u|u|u|u|u|u]; try contradiction;
    try (split; reflexivity).
  destruct u; split; reflexivity.
Qed.

(** On a valid integer [parseInt] is the integer. *)
Lemma parseInt_valid_integer (s : string) (z : Z) :
  valid_integer s = Some z -> parseInt s = of_int z.
Proof.
  unfold valid_integer.
  destruct (NilZero.int_of_string s) as [d|] eqn:E; [|discriminate].
  intros [= <-].
  pose proof (NilZero.sis s d E) as Hs.
  destruct s as [|a s']; [discriminate|].
  unfold NilZero.int_of_string in E.
  destruct (Ascii.eqb a "-") eqn:Ea.
  - destruct (NilZero.uint_of_string s') as [u|] eqn:Eu; [|discriminate].
    injection E as <-. simpl in Hs. injection Hs as Ha Hs'.
    assert (Hu : u <> Decimal.Nil).
    { intros ->. simpl in Hs'. subst s'. discriminate. }
    subst a. rewrite <- Hs'.
    destruct u; try contradiction; apply parseInt_uint; discriminate.
  - destruct (NilZero.uint_of_string (String a s')) as [u|] eqn:Eu; [|discriminate].
    injection E as <-. simpl in Hs.
    assert (Hu : u <> Decimal.Nil).
    { intros ->. simpl in Hs. injection Hs as <- <-. discriminate. }
    rewrite <- Hs.
    destruct u; try contradiction; apply parseInt_uint; discriminate.
Qed.

Lemma as_integer_inject (z : Z) : as_integer (inject_Z z) = Some z.
Proof.
  unfold as_integer, inject_Z. simpl.
  now rewrite Z.mod_1_r, Z.div_1_r.
Qed.

Lemma key_of_int (z : Z) : key_of (JNum (of_int z)) = Some z.
Proof. apply as_integer_inject. Qed.

(** White space of two and three bytes is skipped like a blank: U+2003,
    U+FEFF and U+00A0 go, and U+200B, which is no white space, stays. *)
Lemma parseInt_skips_white_space :
  parseInt (String "226" (String "128" (String "131" "1"))) = of_int 1
  /\ parseInt (String "239" (String "187" (String "191" " 42"))) = of_int 42
  /\ parseInt (String "194" (String "160" "-7")) = of_int (-7)
  /\ parseInt (String "226" (String "128" (String "139" "1"))) = NaN.
Proof. repeat split; reflexivity. Qed.

(** [parseInt] gives NaN or an integer. *)
Lemma parseInt_cases (s : string) :
  parseInt s = NaN \/ exists z, parseInt s = of_int z.
Proof.
  unfold parseInt.
  destruct (match trim_start s with
            | String "-" rest => (-1, rest)
            | String "+" rest => (1, rest)
            | _ => (1, trim_start s)
            end) as [sign s1].
  destruct (match s1 with
            | String "0" (String "x" rest) => (16, rest)
            | String "0" (String "X" rest) => (16, rest)
            | _ => (10, s1)
            end) as [radix s2].
  destruct (parse_digits radix s2 None); eauto.
Qed.

(** ** Base64 *)

Lemma bounded_check (f : Z -> bool) (n : nat) :
  forallb f (map Z.of_nat (seq 0 n)) = true ->
  forall i, 0 <= i < Z.of_nat n -> f i = true.
Proof.
  intros H i Hi. rewrite forallb_forall in H. apply H.
  apply in_map_iff. exists (Z.to_nat i). split; [lia|].
  apply in_seq. lia.
Qed.

Lemma b64_index_char (i : Z) :
  0 <= i < 64 -> b64_index (b64_char i) = Some i.
Proof.
  intros Hi.
  pose (f := fun i => match b64_index (b64_char i) with
                      | Some j => j =? i
                      | None => false
                      end).
  assert (Hf : f i = true) by (apply (bounded_check f 64); [vm_compute; reflexivity | lia]).
  unfold f in Hf. destruct (b64_index (b64_char i)) as [j|]; [|discriminate].
  apply Z.eqb_eq in Hf. now subst.
Qed.

Lemma b64_char_not_pad (i : Z) :
  0 <= i < 64 -> is_pad (b64_char i) = false.
Proof.
  intros Hi.
  apply negb_true_iff.
  apply (bounded_check (fun i => negb (is_pad (b64_char i))) 64);
    [vm_compute; reflexivity | lia].
Qed.

Lemma byte_val_range (b : byte) : 0 <= byte_val b < 256.
Proof.
  unfold byte_val. pose proof (Byte.to_N_bounded b). lia.
Qed.

Lemma byte_of_val (b : byte) : byte_of (byte_val b) = Some b.
Proof.
  unfold byte_of, byte_val. rewrite N2Z.id. apply Byte.of_to_N.
Qed.

Lemma list_ind3 {A : Type} (P : list A -> Prop) :
  P [] ->
  (forall a, P [a]) ->
  (forall a b, P [a; b]) ->
  (forall a b c l, P l -> P (a :: b :: c :: l)) ->
  forall l, P l.
Proof.
  intros H0 H1 H2 H3 l.
  assert (H : forall n (l : list A), (length l <= n)%nat -> P l).
  { induction n as [|n IH]; intros [|a [|b [|c k]]] Hlen; simpl in Hlen; auto;
      try lia.
    apply H3, IH. lia. }
  apply (H (length l)). lia.
Qed.

Ltac sextet :=
  match goal with
  | |- 0 <= _ < 64 => Z.div_mod_to_equations; lia
  end.

(** What [base64] writes, a decoder reads back. *)
Lemma base64_decode_encode (buffer : list byte) :
  base64_decode (base64 buffer) = Some buffer.
Proof.
  induction buffer as [|a|a b|a b c rest IH] using list_ind3.
  - reflexivity.
  - pose proof (byte_val_range a) as Ha.
    cbn [base64 base64_decode].
    rewrite !b64_index_char by sextet.
    replace (byte_val a / 4 * 4 + byte_val a mod 4 * 16 / 16) with (byte_val a)
      by (Z.div_mod_to_equations; lia).
    now rewrite byte_of_val.
  - pose proof (byte_val_range a) as Ha. pose proof (byte_val_range b) as Hb.
    cbn [base64 base64_decode].
    rewrite !b64_index_char by sextet.
    rewrite b64_char_not_pad by sextet.
    replace (byte_val a / 4 * 4 + (byte_val a mod 4 * 16 + byte_val b / 16) / 16)
      with (byte_val a) by (Z.div_mod_to_equations; lia).
    replace ((byte_val a mod 4 * 16 + byte_val b / 16) mod 16 * 16
             + byte_val b mod 16 * 4 / 4)
      with (byte_val b) by (Z.div_mod_to_equations; lia).
    now rewrite !byte_of_val.
  - pose proof (byte_val_range a) as Ha. pose proof (byte_val_range b) as Hb.
    pose proof (byte_val_range c) as Hc.
    cbn [base64 base64_decode].
    rewrite !b64_index_char by sextet.
    rewrite !b64_char_not_pad by sextet.
    replace (byte_val a / 4 * 4 + (byte_val a mod 4 * 16 + byte_val b / 16) / 16)
      with (byte_val a) by (Z.div_mod_to_equations; lia).
    replace ((byte_val a mod 4 * 16 + byte_val b / 16) mod 16 * 16
             + (byte_val b mod 16 * 4 + byte_val c / 64) / 4)
      with (byte_val b) by (Z.div_mod_to_equations; lia).
    replace ((byte_val b mod 16 * 4 + byte_val c / 64) mod 4 * 64
             + byte_val c mod 64)
      with (byte_val c) by (Z.div_mod_to_equations; lia).
    now rewrite !byte_of_val, IH.
Qed.

(** The payload is empty for an empty file and for no other. *)
Lemma base64_empty (buffer : list byte) :
  base64 buffer = EmptyString <-> buffer = [].
Proof.
  split; [|now intros ->].
  destruct buffer as [|a [|b [|c rest]]]; simpl; auto; discriminate.
Qed.

(** ** The handlers *)

Ltac unfold_exec :=
  unfold fetch, json, get, users_get, call_isAdmin, products_get, products_size,
    products_set, products_delete, products_values, assign, readFileSync,
    unlinkSync, Number, when, handle, try_catch, bind, send, ret, throw.

(** Runs a handler through the identity check of an authenticated caller. *)
Ltac pass_identity Hauth :=
  let userData := fresh "userData" in
  let tok := fresh "tok" in
  let Hfetch := fresh "Hfetch" in
  let Hprop := fresh "Hprop" in
  let Huser := fresh "Huser" in
  destruct Hauth as (userData & tok & Hfetch & Hprop & Huser);
  unfold_exec; rewrite Hfetch; simpl; rewrite Hprop; simpl; rewrite Huser; simpl.

Section ControllerFacts.

Variable whoami : JsVal -> FetchResult.
Variable StringToNumber : string -> JsNum.
Variable ObjectToNumber : list (string * JsVal) -> option JsNum.

(** C2.  An [addProduct] request whose identity check answers with a status
    other than 200 gets 401, one whose resolved user is not an admin gets 403,
    and either way the world, the product store included, is as before. *)
Theorem addProduct_rejects_unauthorized (req : Request) (w : World) :
  (forall code parsed,
      whoami (authorization req) = FetchResolved code parsed ->
      code <> 200 ->
      addProduct whoami req w =
        (Sent {| status := 401;
                 sent := Text "Token inválido o usuario no autenticado" |}, w))
  /\ (forall u,
      authenticated_as whoami req w u ->
      isAdmin u = false ->
      addProduct whoami req w =
        (Sent {| status := 403;
                 sent := Text "No tiene permisos para agregar productos" |}, w)).
Proof.
  split.
  - intros code parsed Hfetch Hcode. unfold addProduct. unfold_exec.
    rewrite Hfetch. simpl.
    destruct (code =? 200) eqn:E; [apply Z.eqb_eq in E; contradiction|].
    reflexivity.
  - intros u Hauth Hadmin. unfold addProduct.
    pass_identity Hauth. rewrite Hadmin. reflexivity.
Qed.

(** An admin's complete request: the record is stored under its ID and sent
    back with 201. *)
Lemma addProduct_complete (req : Request) (w : World)
    (vname vdescription vprice vquantity : JsVal) (image : File) :
  admin_request whoami req w ->
  property (body req) "name" = Some vname ->
  property (body req) "description" = Some vdescription ->
  property (body req) "price" = Some vprice ->
  property (body req) "quantity" = Some vquantity ->
  file req = Some image ->
  truthy vname = true -> truthy vdescription = true ->
  truthy vprice = true -> truthy vquantity = true ->
  let p := new_product (products w) vname vdescription vprice vquantity image in
  addProduct whoami req w =
    (Sent {| status := 201; sent := ProductJson p |},
     with_products (JsMap.set (id p) p (products w)) w).
Proof.
  intros (u & Hauth & Hadmin) Hn Hd Hp Hq Hf Tn Td Tp Tq. unfold addProduct.
  pass_identity Hauth. rewrite Hadmin. simpl.
  rewrite Hn, Hd, Hp, Hq, Hf. simpl. rewrite Tn, Td, Tp, Tq. reflexivity.
Qed.

(** An admin's request with a falsy or missing field, or with no image. *)
Lemma addProduct_incomplete (req : Request) (w : World)
    (vname vdescription vprice vquantity : JsVal) :
  admin_request whoami req w ->
  property (body req) "name" = Some vname ->
  property (body req) "description" = Some vdescription ->
  property (body req) "price" = Some vprice ->
  property (body req) "quantity" = Some vquantity ->
  truthy vname = false \/ truthy vdescription = false
    \/ truthy vprice = false \/ truthy vquantity = false \/ file req = None ->
  addProduct whoami req w =
    (Sent {| status := 400; sent := Text "Todos los campos son obligatorios" |}, w).
Proof.
  intros (u & Hauth & Hadmin) Hn Hd Hp Hq Hfalse. unfold addProduct.
  pass_identity Hauth. rewrite Hadmin. simpl.
  rewrite Hn, Hd, Hp, Hq. simpl.
  destruct (file req) as [image|]; [|reflexivity].
  destruct (truthy vname), (truthy vdescription), (truthy vprice),
    (truthy vquantity); simpl; try reflexivity.
  intuition discriminate.
Qed.

(** Whatever the request, a 201 from [addProduct] carries a record whose ID is
    the size of the store plus one, stored under that ID. *)
Lemma addProduct_201_inv (req : Request) (w w' : World) (r : Response) :
  addProduct whoami req w = (Sent r, w') ->
  status r = 201 ->
  exists p,
    sent r = ProductJson p
    /\ id p = JsMap.size (products w) + 1
    /\ w' = with_products (JsMap.set (id p) p (products w)) w.
Proof.
  unfold addProduct. unfold_exec. intros H Hs.
  destruct (whoami (authorization req)) as [|code [userData|]]; simpl in H;
    try (inversion H; subst; discriminate);
    (destruct (code =? 200); simpl in H; [|inversion H; subst; discriminate]).
  2: inversion H; subst; discriminate.
  destruct (property userData "token") as [tok|]; simpl in H;
    [|inversion H; subst; discriminate].
  destruct (lookup_user (users w) tok) as [u|]; simpl in H;
    [|inversion H; subst; discriminate].
  destruct (isAdmin u); simpl in H; [|inversion H; subst; discriminate].
  destruct (property (body req) "name") as [vname|]; simpl in H;
    [|inversion H; subst; discriminate].
  destruct (property (body req) "description") as [vdescription|]; simpl in H;
    [|inversion H; subst; discriminate].
  destruct (property (body req) "price") as [vprice|]; simpl in H;
    [|inversion H; subst; discriminate].
  destruct (property (body req) "quantity") as [vquantity|]; simpl in H;
    [|inversion H; subst; discriminate].
  destruct (file req) as [image|]; simpl in H;
    [|inversion H; subst; discriminate].
  destruct (truthy vname), (truthy vdescription), (truthy vprice),
    (truthy vquantity); simpl in H; inversion H; subst; try discriminate.
  eexists. repeat split.
Qed.

(** *** deleteProduct *)

Lemma lookup_product_key (m : JsMap.t Product) (key : JsVal) (k : Z) (p : Product) :
  lookup_product m key = Some (k, p) ->
  key_of key = Some k /\ JsMap.get k m = Some p.
Proof.
  unfold lookup_product. destruct (key_of key) as [k'|]; [|discriminate].
  destruct (JsMap.get k' m) as [p'|] eqn:E; [|discriminate].
  now intros [= <- <-].
Qed.

(** A number that names a key other than zero is truthy. *)
Lemma key_of_truthy (key : JsVal) (k : Z) :
  key_of key = Some k -> k <> 0 -> truthy key = true.
Proof.
  destruct key as [| | |[| |q]| |]; try discriminate. simpl.
  unfold as_integer. destruct (Qnum q mod Z.pos (Qden q) =? 0); [|discriminate].
  intros [= <-] Hk. destruct (Qnum q =? 0) eqn:E; auto.
  apply Z.eqb_eq in E. rewrite E in Hk. now rewrite Z.div_0_l in Hk.
Qed.

Lemma ids_positive_get (m : JsMap.t Product) (k : Z) (p : Product) :
  ids_positive m -> JsMap.get k m = Some p -> 0 < k.
Proof.
  unfold ids_positive. intros H Hget. rewrite List.Forall_forall in H.
  apply H. apply list_elem_of_In.
  destruct (decide (k ∈ JsMap.keys m)) as [Hin|Hout]; auto.
  apply get_none_not_key in Hout. congruence.
Qed.

Lemma deleteProduct_falsy_id (req : Request) (w : World) (productId : JsVal) :
  admin_request whoami req w ->
  property (body req) "productId" = Some productId ->
  truthy productId = false ->
  deleteProduct whoami req w =
    (Sent {| status := 400; sent := Text "ID de producto no válido" |}, w).
Proof.
  intros (u & Hauth & Hadmin) Hid Hfalsy. unfold deleteProduct.
  pass_identity Hauth. rewrite Hadmin. simpl. rewrite Hid. simpl.
  now rewrite Hfalsy.
Qed.

Lemma deleteProduct_missing (req : Request) (w : World) (productId : JsVal) :
  admin_request whoami req w ->
  property (body req) "productId" = Some productId ->
  truthy productId = true ->
  lookup_product (products w) productId = None ->
  deleteProduct whoami req w =
    (Sent {| status := 404; sent := Text "Producto no encontrado" |}, w).
Proof.
  intros (u & Hauth & Hadmin) Hid Htruthy Hnone. unfold deleteProduct.
  pass_identity Hauth. rewrite Hadmin. simpl. rewrite Hid. simpl.
  rewrite Htruthy. simpl. now rewrite Hnone.
Qed.

Lemma deleteProduct_found (req : Request) (w : World) (productId : JsVal)
    (k : Z) (p : Product) :
  admin_request whoami req w ->
  property (body req) "productId" = Some productId ->
  truthy productId = true ->
  lookup_product (products w) productId = Some (k, p) ->
  deleteProduct whoami req w =
    (Sent {| status := 200; sent := Text "Producto eliminado correctamente" |},
     with_products (JsMap.delete k (products w)) w).
Proof.
  intros (u & Hauth & Hadmin) Hid Htruthy Hsome. unfold deleteProduct.
  pass_identity Hauth. rewrite Hadmin. simpl. rewrite Hid. simpl.
  rewrite Htruthy. simpl. rewrite Hsome. simpl.
  apply lookup_product_key in Hsome as [-> _]. reflexivity.
Qed.

(** *** getProductById *)

Lemma getProductById_nan (req : Request) (w : World) :
  parseInt (params_id req) = NaN ->
  getProductById req w =
    (Sent {| status := 400; sent := Text "ID de producto no válido" |}, w).
Proof.
  intros H. unfold getProductById. unfold_exec. now rewrite H.
Qed.

Lemma getProductById_int (req : Request) (w : World) (z : Z) :
  parseInt (params_id req) = of_int z ->
  getProductById req w =
    match JsMap.get z (products w) with
    | None => (Sent {| status := 404; sent := Text "Producto no encontrado" |}, w)
    | Some p =>
        match fs w !! imageUrl p with
        | Some content =>
            (Sent {| status := 200;
                     sent := ProductWithImageJson
                               {| product := p; image := base64 content |} |}, w)
        | None => (Uncaught (ENOENT (imageUrl p)), w)
        end
    end.
Proof.
  intros H. unfold getProductById. unfold_exec. rewrite H.
  unfold lookup_product. rewrite key_of_int. simpl.
  destruct (JsMap.get z (products w)) as [p|]; [|reflexivity].
  destruct (fs w !! imageUrl p); reflexivity.
Qed.

(** *** updateProduct *)

(** What [updateProduct] does for an admin on a product that exists.  When the
    old image cannot be unlinked the response is 500, with the four fields
    already written to the stored object. *)
Lemma updateProduct_found (req : Request) (w : World) (productId : JsVal)
    (key : JsNum) (k : Z) (p0 : Product) (vname vdescription vprice vquantity : JsVal) :
  admin_request whoami req w ->
  property (body req) "productId" = Some productId ->
  ToNumber StringToNumber ObjectToNumber productId = Some key ->
  lookup_product (products w) (JNum key) = Some (k, p0) ->
  property (body req) "name" = Some vname ->
  property (body req) "description" = Some vdescription ->
  property (body req) "price" = Some vprice ->
  property (body req) "quantity" = Some vquantity ->
  let p := overwrite vname vdescription vprice vquantity p0 in
  updateProduct whoami StringToNumber ObjectToNumber req w =
    match file req with
    | None =>
        (Sent {| status := 200; sent := ProductJson p |},
         with_products (JsMap.set k p (products w)) w)
    | Some image =>
        let imagePath := "src/uploads/" +:+ filename image in
        match fs w !! imageUrl p with
        | Some _ =>
            (Sent {| status := 200; sent := ProductJson (set_imageUrl imagePath p) |},
             {| products := JsMap.set k (set_imageUrl imagePath p) (products w);
                users := users w;
                fs := base.delete (imageUrl p) (fs w) |})
        | None =>
            (Sent {| status := 500; sent := Text "Error interno del servidor" |},
             with_products (JsMap.set k p (products w)) w)
        end
    end.
Proof.
  intros (u & Hauth & Hadmin) Hid Hnum Hfound Hn Hd Hp Hq p.
  apply lookup_product_key in Hfound as Hk. destruct Hk as [_ Hget].
  assert (Hstart : JsMap.set k p0 (products w) = products w)
    by now apply set_get_id.
  unfold updateProduct. pass_identity Hauth. rewrite Hadmin. simpl.
  rewrite Hid. simpl. rewrite Hnum. simpl. rewrite Hfound. simpl.
  rewrite Hn, Hd, Hp, Hq. subst p. unfold overwrite, with_products, with_fs.
  destruct (truthy vname), (truthy vdescription), (truthy vprice),
    (truthy vquantity); simpl; rewrite ?set_set, ?Hstart;
    (destruct (file req) as [image|]; simpl; rewrite ?set_set, ?Hstart;
     [ match goal with
       | |- context [fs w !! ?path] => destruct (fs w !! path)
       end; simpl; rewrite ?set_set, ?Hstart
     | ]);
    try reflexivity; destruct w; reflexivity.
Qed.

(** *** getProducts *)

Lemma map_exec_read_back_ok (w : World) (ps : list Product)
    (contents : list (list byte)) :
  Forall2 (fun p c => fs w !! imageUrl p = Some c) ps contents ->
  map_exec read_back ps w = (Normal (zip_with with_image ps contents), w).
Proof.
  induction 1 as [|p c ps contents Hp _ IH]; [reflexivity|].
  cbn [map_exec]. unfold bind at 1. unfold read_back at 1.
  unfold bind, readFileSync, ret. rewrite Hp.
  unfold bind in IH. now rewrite IH.
Qed.

Lemma map_exec_read_back_fail (w : World) (ps : list Product) :
  Exists (fun p => fs w !! imageUrl p = None) ps ->
  exists p, p ∈ ps /\ fs w !! imageUrl p = None
    /\ map_exec read_back ps w = (Thrown (ENOENT (imageUrl p)), w).
Proof.
  induction ps as [|a ps IH]; intros H; [inversion H|].
  cbn [map_exec]. unfold bind at 1. unfold read_back at 1.
  unfold bind, readFileSync, ret.
  destruct (fs w !! imageUrl a) as [c|] eqn:Ea.
  - apply Exists_cons in H as [H|H]; [congruence|].
    destruct (IH H) as (p & Hin & Hp & Hrun). exists p.
    split; [now apply list_elem_of_further|]. split; [assumption|].
    unfold bind in Hrun. now rewrite Hrun.
  - exists a. split; [apply list_elem_of_here|]. now split.
Qed.

Lemma map_exec_read_back_world (w : World) (ps : list Product) :
  snd (map_exec read_back ps w) = w.
Proof.
  induction ps as [|a ps IH]; [reflexivity|].
  cbn [map_exec]. unfold bind at 1. unfold read_back at 1.
  unfold bind, readFileSync, ret.
  destruct (fs w !! imageUrl a); [|reflexivity].
  unfold bind in IH.
  destruct (map_exec read_back ps w) as [[ys|r|e] w']; simpl in *; assumption.
Qed.

Lemma getProducts_all_readable (req : Request) (w : World)
    (contents : list (list byte)) :
  Forall2 (fun p c => fs w !! imageUrl p = Some c)
    (JsMap.values (products w)) contents ->
  getProducts req w =
    (Sent {| status := 200;
             sent := ProductArrayJson
                       (zip_with with_image (JsMap.values (products w)) contents) |},
     w).
Proof.
  intros H. unfold getProducts, handle, products_values.
  unfold bind at 1. unfold bind at 1.
  change (map_exec _ (JsMap.values (products w)) w)
    with (map_exec read_back (JsMap.values (products w)) w).
  now rewrite (map_exec_read_back_ok _ _ _ H).
Qed.

Lemma getProducts_unreadable (req : Request) (w : World) :
  Exists (fun p => fs w !! imageUrl p = None) (JsMap.values (products w)) ->
  exists p, p ∈ JsMap.values (products w) /\ fs w !! imageUrl p = None
    /\ getProducts req w = (Uncaught (ENOENT (imageUrl p)), w).
Proof.
  intros H. destruct (map_exec_read_back_fail _ _ H) as (p & Hin & Hp & Hrun).
  exists p. split; [assumption|]. split; [assumption|].
  unfold getProducts, handle, products_values.
  unfold bind at 1. unfold bind at 1.
  change (map_exec _ (JsMap.values (products w)) w)
    with (map_exec read_back (JsMap.values (products w)) w).
  now rewrite Hrun.
Qed.

(** *** Properties of one request *)

(** C3 (amended).  An admin's [addProduct] with the four fields truthy and an
    image answers 201 with a record that holds the submitted values and the
    path of the image, stores it, and a [getProductById] on its ID right
    after sends the same record with the stored file in base64, which decodes
    to the uploaded bytes and is empty only for an empty file. *)
Theorem addProduct_then_getProductById (req : Request) (w : World)
    (vname vdescription vprice vquantity : JsVal) (image : File)
    (uploaded : list byte) (req' : Request) :
  admin_request whoami req w ->
  property (body req) "name" = Some vname ->
  property (body req) "description" = Some vdescription ->
  property (body req) "price" = Some vprice ->
  property (body req) "quantity" = Some vquantity ->
  truthy vname = true -> truthy vdescription = true ->
  truthy vprice = true -> truthy vquantity = true ->
  file req = Some image ->
  fs w !! ("src/uploads/" +:+ filename image) = Some uploaded ->
  exists p w',
    addProduct whoami req w = (Sent {| status := 201; sent := ProductJson p |}, w')
    /\ name p = vname /\ description p = vdescription
    /\ price p = vprice /\ quantity p = vquantity
    /\ imageUrl p = "src/uploads/" +:+ filename image
    /\ id p = JsMap.size (products w) + 1
    /\ JsMap.get (id p) (products w') = Some p
    /\ (valid_integer (params_id req') = Some (id p) ->
        getProductById req' w' =
          (Sent {| status := 200;
                   sent := ProductWithImageJson
                             {| product := p; image := base64 uploaded |} |}, w'))
    /\ base64_decode (base64 uploaded) = Some uploaded
    /\ (base64 uploaded = EmptyString <-> uploaded = []).
Proof.
  intros Hadmin Hn Hd Hp Hq Tn Td Tp Tq Hf Hfs.
  pose proof (addProduct_complete req w _ _ _ _ image Hadmin Hn Hd Hp Hq Hf
                Tn Td Tp Tq) as Hrun.
  simpl in Hrun. eexists. eexists. split; [exact Hrun|].
  repeat split; try reflexivity.
  - apply get_set_same.
  - intros Hid. apply parseInt_valid_integer in Hid.
    rewrite (getProductById_int _ _ _ Hid). simpl.
    rewrite get_set_same. simpl. now rewrite Hfs.
  - apply base64_decode_encode.
  - apply base64_empty.
  - apply base64_empty.
Qed.

(** C4.  On an existing product an admin's [updateProduct] overwrites each of
    name, description, price and quantity exactly when the value in the body
    is truthy, and keeps the stored value otherwise; with only a truthy price
    and no file, the stored record is the old one with the new price. *)
Theorem updateProduct_partial_update (req : Request) (w : World)
    (productId : JsVal) (key : JsNum) (k : Z) (p0 : Product)
    (vname vdescription vprice vquantity : JsVal) :
  admin_request whoami req w ->
  property (body req) "productId" = Some productId ->
  ToNumber StringToNumber ObjectToNumber productId = Some key ->
  lookup_product (products w) (JNum key) = Some (k, p0) ->
  property (body req) "name" = Some vname ->
  property (body req) "description" = Some vdescription ->
  property (body req) "price" = Some vprice ->
  property (body req) "quantity" = Some vquantity ->
  exists p,
    JsMap.get k (products (snd (updateProduct whoami StringToNumber ObjectToNumber req w)))
      = Some p
    /\ name p = (if truthy vname then vname else name p0)
    /\ description p = (if truthy vdescription then vdescription else description p0)
    /\ price p = (if truthy vprice then vprice else price p0)
    /\ quantity p = (if truthy vquantity then vquantity else quantity p0)
    /\ id p = id p0
    /\ (file req = None ->
        imageUrl p = imageUrl p0
        /\ fst (updateProduct whoami StringToNumber ObjectToNumber req w)
           = Sent {| status := 200; sent := ProductJson p |})
    /\ (file req = None -> truthy vname = false -> truthy vdescription = false ->
        truthy vquantity = false -> truthy vprice = true ->
        p = set_price vprice p0).
Proof.
  intros Hadmin Hid Hnum Hfound Hn Hd Hp Hq.
  rewrite (updateProduct_found req w _ _ _ _ _ _ _ _ Hadmin Hid Hnum Hfound
             Hn Hd Hp Hq).
  assert (Hfields : forall q : Product,
    let p := overwrite vname vdescription vprice vquantity p0 in
    (q = p \/ exists path, q = set_imageUrl path p) ->
    name q = (if truthy vname then vname else name p0)
    /\ description q = (if truthy vdescription then vdescription else description p0)
    /\ price q = (if truthy vprice then vprice else price p0)
    /\ quantity q = (if truthy vquantity then vquantity else quantity p0)
    /\ id q = id p0).
  { intros q p [->|[path ->]]; subst p; unfold overwrite;
      destruct (truthy vname), (truthy vdescription), (truthy vprice),
        (truthy vquantity); simpl; auto. }
  set (p := overwrite vname vdescription vprice vquantity p0) in *.
  destruct (file req) as [image|] eqn:Hfile.
  - destruct (fs w !! imageUrl p); simpl.
    + exists (set_imageUrl ("src/uploads/" +:+ filename image) p).
      split; [apply get_set_same|].
      destruct (Hfields (set_imageUrl ("src/uploads/" +:+ filename image) p)
                  (or_intror (ex_intro _ ("src/uploads/" +:+ filename image) eq_refl)))
        as (? & ? & ? & ? & ?).
      repeat split; auto; discriminate.
    + exists p. split; [apply get_set_same|].
      destruct (Hfields p (or_introl eq_refl)) as (? & ? & ? & ? & ?).
      repeat split; auto; discriminate.
  - simpl. exists p. split; [apply get_set_same|].
    destruct (Hfields p (or_introl eq_refl)) as (? & ? & ? & ? & ?).
    subst p. repeat split; auto.
    + unfold overwrite.
      destruct (truthy vname), (truthy vdescription), (truthy vprice),
        (truthy vquantity); reflexivity.
    + intros _ Tn Td Tq Tp. unfold overwrite. now rewrite Tn, Td, Tq, Tp.
Qed.


(** C6 (amended).  An admin's [deleteProduct] whose productId names no product
    of the store leaves the world as it is and answers 404 when the productId
    is truthy, 400 when it is falsy. *)
Theorem deleteProduct_unknown_id (req : Request) (w : World) (productId : JsVal) :
  admin_request whoami req w ->
  property (body req) "productId" = Some productId ->
  lookup_product (products w) productId = None ->
  deleteProduct whoami req w =
    (Sent (if truthy productId
           then {| status := 404; sent := Text "Producto no encontrado" |}
           else {| status := 400; sent := Text "ID de producto no válido" |}),
     w).
Proof.
  intros Hadmin Hid Hnone. destruct (truthy productId) eqn:E.
  - now apply deleteProduct_missing with productId.
  - now apply deleteProduct_falsy_id with productId.
Qed.

(** C7.  An admin's [deleteProduct] on a productId that names a product
    removes that product and no other from the store, so that [getProductById]
    on the ID answers 404 afterwards, and leaves every file, the product's
    image among them, on disk. *)
Theorem deleteProduct_removes (req : Request) (w : World) (productId : JsVal)
    (k : Z) (p : Product) :
  admin_request whoami req w ->
  ids_positive (products w) ->
  property (body req) "productId" = Some productId ->
  lookup_product (products w) productId = Some (k, p) ->
  exists w',
    deleteProduct whoami req w =
      (Sent {| status := 200; sent := Text "Producto eliminado correctamente" |}, w')
    /\ JsMap.get k (products w') = None
    /\ (forall k', k' <> k -> JsMap.get k' (products w') = JsMap.get k' (products w))
    /\ fs w' = fs w
    /\ (forall req', valid_integer (params_id req') = Some k ->
          getProductById req' w' =
            (Sent {| status := 404; sent := Text "Producto no encontrado" |}, w')).
Proof.
  intros Hadmin Hpos Hid Hfound.
  destruct (lookup_product_key _ _ _ _ Hfound) as [Hkey Hget].
  assert (Htruthy : truthy productId = true).
  { apply key_of_truthy with k; auto.
    pose proof (ids_positive_get _ _ _ Hpos Hget). lia. }
  rewrite (deleteProduct_found req w productId k p Hadmin Hid Htruthy Hfound).
  eexists. split; [reflexivity|]. simpl. repeat split.
  - apply get_delete_same.
  - intros k' Hne. apply get_delete_other. congruence.
  - intros req' Hvalid. apply parseInt_valid_integer in Hvalid.
    rewrite (getProductById_int _ _ _ Hvalid). simpl.
    now rewrite get_delete_same.
Qed.

(** C8.  [getProducts] looks at nothing of the request, so it authorizes
    nobody; when every product's image file can be read it sends the products
    in store order, each with its file in base64, and when one cannot be read
    the exception leaves the handler with nothing sent; the world is untouched
    either way. *)
Theorem getProducts_all_or_nothing (req : Request) (w : World) :
  (forall req', getProducts req' w = getProducts req w)
  /\ (forall contents,
        Forall2 (fun p c => fs w !! imageUrl p = Some c)
          (JsMap.values (products w)) contents ->
        getProducts req w =
          (Sent {| status := 200;
                   sent := ProductArrayJson
                             (zip_with with_image (JsMap.values (products w))
                                contents) |}, w))
  /\ (Exists (fun p => fs w !! imageUrl p = None) (JsMap.values (products w)) ->
      exists p, p ∈ JsMap.values (products w) /\ fs w !! imageUrl p = None
        /\ getProducts req w = (Uncaught (ENOENT (imageUrl p)), w)).
Proof.
  split; [reflexivity|]. split.
  - apply getProducts_all_readable.
  - apply getProducts_unreadable.
Qed.

(** C9.  When the identity endpoint answers 200 with a token that is the key
    of no user, [users.get] gives nothing, the call of [isAdmin] on it throws,
    and each of the three mutating handlers answers 500 and leaves the world,
    the product store included, as it was. *)
Theorem unknown_user_is_500 (req : Request) (w : World) (userData tok : JsVal) :
  whoami (authorization req) = FetchResolved 200 (Some userData) ->
  property userData "token" = Some tok ->
  lookup_user (users w) tok = None ->
  let internal := Sent {| status := 500; sent := Text "Error interno del servidor" |} in
  users_get tok w = (Normal None, w)
  /\ call_isAdmin None w = (Thrown TypeError, w)
  /\ addProduct whoami req w = (internal, w)
  /\ deleteProduct whoami req w = (internal, w)
  /\ updateProduct whoami StringToNumber ObjectToNumber req w = (internal, w).
Proof.
  intros Hfetch Hprop Huser. simpl.
  split; [unfold users_get; now rewrite Huser|]. split; [reflexivity|].
  unfold addProduct, deleteProduct, updateProduct. unfold_exec.
  rewrite Hfetch. simpl. rewrite Hprop. simpl. rewrite Huser. auto.
Qed.

(** C10.  An admin's [addProduct] in which one of name, description, price
    and quantity is present in the body with a falsy value answers 400 and
    leaves the world as it was; the same falsy value sent to [updateProduct]
    for an existing product is skipped, the stored field staying as it is. *)
Theorem addProduct_rejects_falsy_field (req : Request) (w : World)
    (props : list (string * JsVal)) (field : string) (v : JsVal) :
  admin_request whoami req w ->
  body req = JObject props ->
  field ∈ ["name"; "description"; "price"; "quantity"] ->
  assoc field props = Some v ->
  truthy v = false ->
  addProduct whoami req w =
    (Sent {| status := 400; sent := Text "Todos los campos son obligatorios" |}, w)
  /\ (forall productId key k p0,
        assoc "productId" props = Some productId ->
        ToNumber StringToNumber ObjectToNumber productId = Some key ->
        lookup_product (products w) (JNum key) = Some (k, p0) ->
        exists p,
          JsMap.get k
            (products (snd (updateProduct whoami StringToNumber ObjectToNumber req w)))
            = Some p
          /\ (field = "name" -> name p = name p0)
          /\ (field = "description" -> description p = description p0)
          /\ (field = "price" -> price p = price p0)
          /\ (field = "quantity" -> quantity p = quantity p0)).
Proof.
  intros Hadmin Hbody Hfield Hv Hfalsy.
  assert (Hprop : forall f, property (body req) f =
            Some (match assoc f props with Some x => x | None => JUndefined end))
    by (intros f; now rewrite Hbody).
  assert (Hval : (match assoc field props with Some x => x | None => JUndefined end) = v)
    by now rewrite Hv.
  split.
  - eapply addProduct_incomplete; eauto.
    rewrite !elem_of_cons in Hfield.
    destruct Hfield as [->|[->|[->|[->|Hnil]]]];
      [ | | | |now apply elem_of_nil in Hnil]; rewrite Hval; auto.
  - intros productId key k p0 Hid Hnum Hfound.
    assert (Hid' : property (body req) "productId" = Some productId)
      by (rewrite Hprop; now rewrite Hid).
    rewrite (updateProduct_found req w _ _ _ _ _ _ _ _ Hadmin Hid' Hnum Hfound
               (Hprop _) (Hprop _) (Hprop _) (Hprop _)).
    set (p := overwrite _ _ _ _ p0).
    assert (Hkeep :
      (field = "name" -> name p = name p0)
      /\ (field = "description" -> description p = description p0)
      /\ (field = "price" -> price p = price p0)
      /\ (field = "quantity" -> quantity p = quantity p0)).
    { subst p. unfold overwrite. repeat split; intros ->;
        rewrite Hval, Hfalsy;
        repeat match goal with
               | |- context [truthy ?x] => destruct (truthy x)
               end; reflexivity. }
    destruct (file req) as [image|].
    + destruct (fs w !! imageUrl p); simpl; eexists;
        (split; [apply get_set_same|]); simpl; exact Hkeep.
    + simpl. eexists. split; [apply get_set_same|]. exact Hkeep.
Qed.

(** *** The store invariant *)

Lemma store_ok_empty : store_ok JsMap.empty.
Proof. split; [apply NoDup_nil_2 | apply List.Forall_nil]. Qed.

Lemma store_ok_set (m : JsMap.t Product) (k : Z) (p : Product) :
  store_ok m -> 0 < k -> store_ok (JsMap.set k p m).
Proof.
  intros [Hwf Hpos] Hk. split; [now apply wf_set|].
  unfold ids_positive in *. destruct (JsMap.get k m) eqn:E.
  - rewrite keys_set_present; [assumption | congruence].
  - rewrite keys_set_fresh by assumption.
    apply List.Forall_app. split; [assumption|]. now constructor.
Qed.

Lemma store_ok_delete (m : JsMap.t Product) (k : Z) :
  store_ok m -> store_ok (JsMap.delete k m).
Proof.
  intros [Hwf Hpos]. split; [now apply wf_delete|].
  unfold ids_positive in *. rewrite List.Forall_forall in *.
  intros x Hx. apply Hpos. apply list_elem_of_In.
  apply list_elem_of_In in Hx. eapply keys_delete_subset, Hx.
Qed.

Lemma property_defined (o : JsVal) (a b : string) (v : JsVal) :
  property o a = Some v -> exists v', property o b = Some v'.
Proof.
  destruct o; simpl; try discriminate; eauto.
Qed.

(** The product map after [addProduct]: as before, or with the new record
    under the size plus one. *)
Lemma addProduct_products (req : Request) (w : World) :
  products (snd (addProduct whoami req w)) = products w
  \/ exists p, products (snd (addProduct whoami req w))
               = JsMap.set (JsMap.size (products w) + 1) p (products w).
Proof.
  destruct (addProduct whoami req w) as [[r|e] w'] eqn:E.
  - destruct (Z.eq_dec (status r) 201) as [Hs|Hs].
    + destruct (addProduct_201_inv _ _ _ _ E Hs) as (p & _ & Hid & ->).
      right. exists p. simpl. now rewrite Hid.
    + left. simpl. revert E. unfold addProduct. unfold_exec.
      destruct (whoami (authorization req)) as [|code [userData|]]; simpl;
        try (intros [= <- <-]; reflexivity);
        (destruct (code =? 200); simpl; [|intros [= <- <-]; reflexivity]).
      2: intros [= <- <-]; reflexivity.
      destruct (property userData "token") as [tok|]; simpl;
        [|intros [= <- <-]; reflexivity].
      destruct (lookup_user (users w) tok) as [u|]; simpl;
        [|intros [= <- <-]; reflexivity].
      destruct (isAdmin u); simpl; [|intros [= <- <-]; reflexivity].
      destruct (property (body req) "name"); simpl;
        [|intros [= <- <-]; reflexivity].
      destruct (property (body req) "description"); simpl;
        [|intros [= <- <-]; reflexivity].
      destruct (property (body req) "price"); simpl;
        [|intros [= <- <-]; reflexivity].
      destruct (property (body req) "quantity"); simpl;
        [|intros [= <- <-]; reflexivity].
      destruct (file req); simpl; [|intros [= <- <-]; reflexivity].
      destruct (negb (truthy j) || negb (truthy j0) || negb (truthy j1)
                || negb (truthy j2)); simpl; intros [= <- <-];
        [reflexivity | simpl in Hs; contradiction].
  - exfalso. revert E. unfold addProduct. unfold_exec.
    repeat match goal with
           | |- context [match ?x with _ => _ end] =>
               lazymatch x with
               | context [match _ with _ => _ end] => fail
               | _ => destruct x; simpl
               end
           end; discriminate.
Qed.

Lemma deleteProduct_products (req : Request) (w : World) :
  products (snd (deleteProduct whoami req w)) = products w
  \/ exists k, products (snd (deleteProduct whoami req w))
               = JsMap.delete k (products w).
Proof.
  unfold deleteProduct. unfold_exec.
  destruct (whoami (authorization req)) as [|code [userData|]]; simpl; auto;
    (destruct (code =? 200); simpl; auto).
  destruct (property userData "token") as [tok|]; simpl; auto.
  destruct (lookup_user (users w) tok) as [u|]; simpl; auto.
  destruct (isAdmin u); simpl; auto.
  destruct (property (body req) "productId") as [productId|]; simpl; auto.
  destruct (truthy productId); simpl; auto.
  destruct (lookup_product (products w) productId) as [[k p]|] eqn:E; simpl; auto.
  apply lookup_product_key in E as [-> _]. simpl. eauto.
Qed.

Lemma updateProduct_products (req : Request) (w : World) :
  products (snd (updateProduct whoami StringToNumber ObjectToNumber req w))
    = products w
  \/ exists k p, JsMap.get k (products w) <> None
        /\ products (snd (updateProduct whoami StringToNumber ObjectToNumber req w))
            = JsMap.set k p (products w).
Proof.
  destruct (whoami (authorization req)) as [|code [userData|]] eqn:Hfetch;
    try (left; unfold updateProduct; unfold_exec; rewrite Hfetch; simpl;
         try destruct (code =? 200); reflexivity).
  destruct (code =? 200) eqn:Hcode;
    [|left; unfold updateProduct; unfold_exec; rewrite Hfetch; simpl;
      now rewrite Hcode].
  apply Z.eqb_eq in Hcode. subst code.
  destruct (property userData "token") as [tok|] eqn:Htok;
    [|left; unfold updateProduct; unfold_exec; rewrite Hfetch; simpl;
      now rewrite Htok].
  destruct (lookup_user (users w) tok) as [u|] eqn:Hu;
    [|left; unfold updateProduct; unfold_exec; rewrite Hfetch; simpl;
      rewrite Htok; simpl; now rewrite Hu].
  destruct (isAdmin u) eqn:Hadm;
    [|left; unfold updateProduct; unfold_exec; rewrite Hfetch; simpl;
      rewrite Htok; simpl; rewrite Hu; simpl; now rewrite Hadm].
  assert (Hadmin : admin_request whoami req w).
  { exists u. split; [|assumption]. exists userData, tok. auto. }
  destruct (property (body req) "productId") as [productId|] eqn:Hid;
    [|left; unfold updateProduct; unfold_exec; rewrite Hfetch; simpl;
      rewrite Htok; simpl; rewrite Hu; simpl; rewrite Hadm; simpl;
      now rewrite Hid].
  destruct (ToNumber StringToNumber ObjectToNumber productId) as [key|] eqn:Hnum;
    [|left; unfold updateProduct; unfold_exec; rewrite Hfetch; simpl;
      rewrite Htok; simpl; rewrite Hu; simpl; rewrite Hadm; simpl;
      rewrite Hid; simpl; now rewrite Hnum].
  destruct (lookup_product (products w) (JNum key)) as [[k p0]|] eqn:Hfound;
    [|left; unfold updateProduct; unfold_exec; rewrite Hfetch; simpl;
      rewrite Htok; simpl; rewrite Hu; simpl; rewrite Hadm; simpl;
      rewrite Hid; simpl; rewrite Hnum; simpl; now rewrite Hfound].
  destruct (property_defined _ _ "name" _ Hid) as [vn Hn].
  destruct (property_defined _ _ "description" _ Hid) as [vd Hd].
  destruct (property_defined _ _ "price" _ Hid) as [vp Hp].
  destruct (property_defined _ _ "quantity" _ Hid) as [vq Hq].
  rewrite (updateProduct_found req w _ _ _ _ _ _ _ _ Hadmin Hid Hnum Hfound
             Hn Hd Hp Hq).
  apply lookup_product_key in Hfound as [_ Hget].
  right. exists k.
  destruct (file req) as [image|];
    [destruct (fs w !! imageUrl (overwrite vn vd vp vq p0))|];
    simpl; eexists; (split; [congruence | reflexivity]).
Qed.

(** Every handler keeps the store well formed with positive keys, as the empty
    store is. *)
Lemma handlers_keep_store_ok (req : Request) (w : World) :
  store_ok (products w) ->
  store_ok (products (snd (addProduct whoami req w)))
  /\ store_ok (products (snd (deleteProduct whoami req w)))
  /\ store_ok (products (snd (updateProduct whoami StringToNumber ObjectToNumber req w)))
  /\ snd (getProducts req w) = w
  /\ snd (getProductById req w) = w.
Proof.
  intros Hok. split; [|split; [|split; [|split]]].
  - destruct (addProduct_products req w) as [->|[p ->]]; auto.
    apply store_ok_set; auto. unfold JsMap.size. lia.
  - destruct (deleteProduct_products req w) as [->|[k ->]]; auto.
    now apply store_ok_delete.
  - destruct (updateProduct_products req w) as [->|(k & p & Hk & ->)]; auto.
    apply store_ok_set; auto.
    destruct (JsMap.get k (products w)) as [p0|] eqn:E; [|congruence].
    eapply ids_positive_get; [apply Hok | exact E].
  - unfold getProducts, handle, products_values.
    unfold bind at 1. unfold bind at 1.
    change (map_exec _ (JsMap.values (products w)) w)
      with (map_exec read_back (JsMap.values (products w)) w).
    pose proof (map_exec_read_back_world w (JsMap.values (products w))) as Hw.
    destruct (map_exec read_back (JsMap.values (products w)) w) as [[ps|r|e] w'];
      simpl in *; assumption.
  - destruct (parseInt_cases (params_id req)) as [Hnan|[z Hz]].
    + now rewrite (getProductById_nan _ _ Hnan).
    + rewrite (getProductById_int _ _ _ Hz).
      destruct (JsMap.get z (products w)) as [p|]; [|reflexivity].
      destruct (fs w !! imageUrl p); reflexivity.
Qed.

End ControllerFacts.

(** * Runs of several requests, and instances on the running shop *)

Import Demo.

Lemma demo_admin_request (fields : list (string * JsVal)) (upload : option File)
    (w : World) :
  users w = registered ->
  admin_request whoami (request admin_header fields upload) w.
Proof.
  intros Hu. exists admin. split; [|reflexivity].
  exists (JObject [("token", JStr "t-admin")]), (JStr "t-admin").
  repeat split. simpl. now rewrite Hu.
Defined.



Lemma addProduct_rejects_unauthorized_witness :
  addProduct whoami (request JUndefined widget None) empty_shop
    = (Sent {| status := 401;
               sent := Text "Token inválido o usuario no autenticado" |},
       empty_shop)
  /\ addProduct whoami (request (JStr "Bearer shopper") widget None) empty_shop
    = (Sent {| status := 403;
               sent := Text "No tiene permisos para agregar productos" |},
       empty_shop).
Proof.
  split.
  - apply (proj1 (addProduct_rejects_unauthorized whoami
                    (request JUndefined widget None) empty_shop) 401 None).
    + reflexivity.
    + discriminate.
  - apply (proj2 (addProduct_rejects_unauthorized whoami
                    (request (JStr "Bearer shopper") widget None) empty_shop)
             shopper).
    + exists (JObject [("token", JStr "t-shopper")]), (JStr "t-shopper").
      repeat split.
    + reflexivity.
Defined.

(** The widget added with its picture on disk, then fetched as [/products/1]. *)
Lemma addProduct_then_getProductById_witness :
  exists p w',
    addProduct whoami (request admin_header widget (Some first_image))
      (with_upload picture)
      = (Sent {| status := 201; sent := ProductJson p |}, w')
    /\ name p = JStr "Widget"
    /\ imageUrl p = "src/uploads/1700000000001.png"
    /\ getProductById (lookup "1") w'
       = (Sent {| status := 200;
                  sent := ProductWithImageJson
                            {| product := p; image := "TWFu" |} |}, w')
    /\ base64_decode "TWFu" = Some picture.
Proof.
  destruct (addProduct_then_getProductById whoami
              (request admin_header widget (Some first_image))
              (with_upload picture)
              (JStr "Widget") (JStr "A widget") (JStr "10") (JStr "5")
              first_image picture (lookup "1"))
    as (p & w' & Hadd & Hn & Hd & Hp & Hq & Hurl & Hid & _ & Hget & Hdec & _);
    try reflexivity.
  - now apply demo_admin_request.
  - exists p, w'. split; [exact Hadd|]. split; [exact Hn|].
    split; [exact Hurl|]. split; [|exact Hdec]. apply Hget. now rewrite Hid.
Defined.

(** C3, as stated, fails on an image of no bytes: the request is an admin's,
    complete, with its image stored, and the payload that [getProductById]
    sends back is the empty string. *)
Lemma addProduct_empty_image_payload :
  admin_request whoami (request admin_header widget (Some first_image))
    (with_upload [])
  /\ file (request admin_header widget (Some first_image)) = Some first_image
  /\ fs (with_upload []) !! "src/uploads/1700000000001.png" = Some []
  /\ exists w',
      addProduct whoami (request admin_header widget (Some first_image))
        (with_upload [])
        = (Sent {| status := 201; sent := ProductJson widget_record |}, w')
      /\ getProductById (lookup "1") w'
         = (Sent {| status := 200;
                    sent := ProductWithImageJson
                              {| product := widget_record;
                                 image := EmptyString |} |}, w').
Proof.
  split; [now apply demo_admin_request|]. split; [reflexivity|].
  split; [reflexivity|]. eexists. split; reflexivity.
Qed.

(** The widget's price alone is updated. *)
Lemma updateProduct_partial_update_witness :
  exists p,
    JsMap.get 1
      (products
         (snd (updateProduct whoami StringToNumber ObjectToNumber
                 (request admin_header
                    [("productId", JNum (of_int 1)); ("price", JStr "12")] None)
                 one_widget)))
      = Some p
    /\ p = set_price (JStr "12") widget_record.
Proof.
  destruct (updateProduct_partial_update whoami StringToNumber ObjectToNumber
              (request admin_header
                 [("productId", JNum (of_int 1)); ("price", JStr "12")] None)
              one_widget (JNum (of_int 1)) (of_int 1) 1 widget_record
              JUndefined JUndefined (JStr "12") JUndefined)
    as (p & Hget & _ & _ & _ & _ & _ & _ & Honly); try reflexivity.
  - now apply demo_admin_request.
  - exists p. split; [exact Hget|]. now apply Honly.
Defined.



(** C6, as stated, fails on the productId 0: it names no product, and the
    answer is 400. *)
Lemma deleteProduct_zero_id :
  admin_request whoami
    (request admin_header [("productId", JNum (of_int 0))] None) one_widget
  /\ property (body (request admin_header [("productId", JNum (of_int 0))] None))
       "productId" = Some (JNum (of_int 0))
  /\ lookup_product (products one_widget) (JNum (of_int 0)) = None
  /\ deleteProduct whoami
       (request admin_header [("productId", JNum (of_int 0))] None) one_widget
     = (Sent {| status := 400; sent := Text "ID de producto no válido" |},
        one_widget)
  /\ status_of
       (fst (deleteProduct whoami
               (request admin_header [("productId", JNum (of_int 0))] None)
               one_widget)) <> Some 404.
Proof.
  split; [now apply demo_admin_request|]. repeat split. vm_compute. discriminate.
Qed.

Lemma deleteProduct_unknown_id_witness :
  deleteProduct whoami
    (request admin_header [("productId", JNum (of_int 9999))] None) one_widget
  = (Sent {| status := 404; sent := Text "Producto no encontrado" |}, one_widget).
Proof.
  apply (deleteProduct_unknown_id whoami
           (request admin_header [("productId", JNum (of_int 9999))] None)
           one_widget (JNum (of_int 9999))).
  - now apply demo_admin_request.
  - reflexivity.
  - reflexivity.
Defined.

Lemma deleteProduct_removes_witness :
  exists w',
    deleteProduct whoami
      (request admin_header [("productId", JNum (of_int 1))] None) one_widget
      = (Sent {| status := 200; sent := Text "Producto eliminado correctamente" |},
         w')
    /\ getProductById (lookup "1") w'
       = (Sent {| status := 404; sent := Text "Producto no encontrado" |}, w')
    /\ fs w' !! "src/uploads/1700000000001.png" = Some picture.
Proof.
  destruct (deleteProduct_removes whoami
              (request admin_header [("productId", JNum (of_int 1))] None)
              one_widget (JNum (of_int 1)) 1 widget_record)
    as (w' & Hdel & _ & _ & Hfs & Hget); try reflexivity.
  - now apply demo_admin_request.
  - repeat constructor.
  - exists w'. split; [exact Hdel|]. split; [now apply Hget|].
    now rewrite Hfs.
Defined.

Lemma getProducts_all_or_nothing_witness :
  getProducts (lookup "") one_widget
    = (Sent {| status := 200;
               sent := ProductArrayJson
                         [{| product := widget_record; image := "TWFu" |}] |},
       one_widget)
  /\ exists p,
      getProducts (lookup "") (with_fs ∅ one_widget)
      = (Uncaught (ENOENT (imageUrl p)), with_fs ∅ one_widget).
Proof.
  split.
  - apply (proj1 (proj2 (getProducts_all_or_nothing (lookup "") one_widget))
             [picture]).
    repeat constructor.
  - destruct (proj2 (proj2 (getProducts_all_or_nothing (lookup "")
                              (with_fs ∅ one_widget))))
      as (p & _ & _ & Hrun).
    + constructor. reflexivity.
    + exists p. exact Hrun.
Defined.

Lemma unknown_user_is_500_witness :
  addProduct whoami (request (JStr "Bearer stale") widget (Some first_image))
    one_widget
    = (Sent {| status := 500; sent := Text "Error interno del servidor" |},
       one_widget)
  /\ deleteProduct whoami
       (request (JStr "Bearer stale") [("productId", JNum (of_int 1))] None)
       one_widget
     = (Sent {| status := 500; sent := Text "Error interno del servidor" |},
        one_widget).
Proof.
  split.
  - apply (unknown_user_is_500 whoami StringToNumber ObjectToNumber
             (request (JStr "Bearer stale") widget (Some first_image)) one_widget
             (JObject [("token", JStr "t-stale")]) (JStr "t-stale"));
      reflexivity.
  - apply (unknown_user_is_500 whoami StringToNumber ObjectToNumber
             (request (JStr "Bearer stale") [("productId", JNum (of_int 1))] None)
             one_widget
             (JObject [("token", JStr "t-stale")]) (JStr "t-stale"));
      reflexivity.
Defined.

(** A quantity of 0 is refused by [addProduct]. *)
Lemma addProduct_rejects_falsy_field_witness :
  addProduct whoami
    (request admin_header
       [("name", JStr "Widget"); ("description", JStr "A widget");
        ("price", JStr "10"); ("quantity", JNum (of_int 0))]
       (Some first_image))
    (with_upload picture)
  = (Sent {| status := 400; sent := Text "Todos los campos son obligatorios" |},
     with_upload picture).
Proof.
  apply (addProduct_rejects_falsy_field whoami StringToNumber ObjectToNumber
           (request admin_header
              [("name", JStr "Widget"); ("description", JStr "A widget");
               ("price", JStr "10"); ("quantity", JNum (of_int 0))]
              (Some first_image))
           (with_upload picture)
           [("name", JStr "Widget"); ("description", JStr "A widget");
            ("price", JStr "10"); ("quantity", JNum (of_int 0))]
           "quantity" (JNum (of_int 0))).
  - now apply demo_admin_request.
  - reflexivity.
  - repeat constructor.
  - reflexivity.
  - reflexivity.
Defined.

(** * Further properties of the handlers *)

(** Destructs what the goal branches on, innermost first. *)
Ltac crunch :=
  repeat (simpl;
          match goal with
          | |- context [match ?x with _ => _ end] =>
              lazymatch x with
              | context [match _ with _ => _ end] => fail
              | _ => destruct x eqn:?
              end
          end);
  simpl.

Section Coverage.

Variable whoami : JsVal -> FetchResult.
Variable StringToNumber : string -> JsNum.
Variable ObjectToNumber : list (string * JsVal) -> option JsNum.

(** The caller the handlers let through, read back from a finished case
    analysis. *)
Ltac admitted_caller :=
  match goal with
  | Hf : whoami (authorization ?req) = FetchResolved ?c (Some ?ud),
    Hp : property ?ud "token" = Some ?t,
    Hu : lookup_user (users ?w) ?t = Some ?u,
    Ha : isAdmin ?u = true |- admin_request whoami ?req ?w =>
      let Hc := fresh in
      assert (Hc : c = 200)
        by (match goal with
            | H : negb (c =? 200) = false |- _ =>
                apply negb_false_iff, Z.eqb_eq in H; exact H
            | H : (c =? 200) = true |- _ => apply Z.eqb_eq in H; exact H
            end);
      subst c; exists u; split; [exists ud, t; auto | exact Ha]
  end.

(** X1.  [deleteProduct] and [updateProduct] turn away a caller the identity
    check rejects with 401 and an authenticated non-admin with 403, as
    [addProduct] does, and leave the world as it is. *)
Theorem delete_update_reject_unauthorized (req : Request) (w : World) :
  (forall code parsed,
      whoami (authorization req) = FetchResolved code parsed ->
      code <> 200 ->
      deleteProduct whoami req w =
        (Sent {| status := 401;
                 sent := Text "Token inválido o usuario no autenticado" |}, w)
      /\ updateProduct whoami StringToNumber ObjectToNumber req w =
        (Sent {| status := 401;
                 sent := Text "Token inválido o usuario no autenticado" |}, w))
  /\ (forall u,
      authenticated_as whoami req w u ->
      isAdmin u = false ->
      deleteProduct whoami req w =
        (Sent {| status := 403;
                 sent := Text "No tiene permisos para eliminar productos" |}, w)
      /\ updateProduct whoami StringToNumber ObjectToNumber req w =
        (Sent {| status := 403;
                 sent := Text "No tiene permisos para actualizar productos" |}, w)).
Proof.
  split.
  - intros code parsed Hfetch Hcode.
    unfold deleteProduct, updateProduct. unfold_exec. rewrite Hfetch. simpl.
    destruct (code =? 200) eqn:E; [apply Z.eqb_eq in E; contradiction|].
    split; reflexivity.
  - intros u Hauth Hadmin. unfold deleteProduct, updateProduct.
    pass_identity Hauth. rewrite Hadmin. split; reflexivity.
Qed.

(** X2.  When the identity endpoint cannot be reached, or answers 200 with a
    body that is not JSON or is [null], each mutating handler answers 500; so
    does each for an admin whose request has no body.  The world is left as
    it is. *)
Theorem broken_request_is_500 (req : Request) (w : World) :
  whoami (authorization req) = FetchRejected
  \/ whoami (authorization req) = FetchResolved 200 None
  \/ whoami (authorization req) = FetchResolved 200 (Some JNull)
  \/ (admin_request whoami req w /\ body req = JUndefined) ->
  let internal := Sent {| status := 500; sent := Text "Error interno del servidor" |} in
  addProduct whoami req w = (internal, w)
  /\ deleteProduct whoami req w = (internal, w)
  /\ updateProduct whoami StringToNumber ObjectToNumber req w = (internal, w).
Proof.
  intros [H|[H|[H|[(u & Hauth & Hadmin) Hbody]]]]; simpl;
    unfold addProduct, deleteProduct, updateProduct.
  - unfold_exec. rewrite H. auto.
  - unfold_exec. rewrite H. auto.
  - unfold_exec. rewrite H. auto.
  - pass_identity Hauth. rewrite Hadmin, Hbody. auto.
Qed.

(** X3.  A caller who is not an authenticated admin changes nothing: each
    mutating handler returns the world it was given and answers 401, 403 or
    500. *)
Theorem mutation_requires_admin (req : Request) (w : World) :
  ~ admin_request whoami req w ->
  (snd (addProduct whoami req w) = w
   /\ refused (fst (addProduct whoami req w)))
  /\ (snd (deleteProduct whoami req w) = w
      /\ refused (fst (deleteProduct whoami req w)))
  /\ (snd (updateProduct whoami StringToNumber ObjectToNumber req w) = w
      /\ refused (fst (updateProduct whoami StringToNumber ObjectToNumber req w))).
Proof.
  intros Hnot. unfold refused.
  split; [|split];
    unfold addProduct, deleteProduct, updateProduct; unfold_exec;
    (destruct (whoami (authorization req)) as [|code [userData|]] eqn:Hfetch;
     simpl; auto);
    (destruct (code =? 200) eqn:Hcode; simpl; auto);
    (destruct (property userData "token") as [tok|] eqn:Htok; simpl; auto);
    (destruct (lookup_user (users w) tok) as [u|] eqn:Hu; simpl; auto);
    (destruct (isAdmin u) eqn:Hadm; simpl; auto);
    exfalso; apply Hnot; admitted_caller.
Qed.

(** X4.  [addProduct] changes the world only when it answers 201, and
    [deleteProduct] only when it answers 200. *)
Theorem add_delete_all_or_nothing (req : Request) (w : World) :
  (status_of (fst (addProduct whoami req w)) = Some 201
   \/ snd (addProduct whoami req w) = w)
  /\ (status_of (fst (deleteProduct whoami req w)) = Some 200
      \/ snd (deleteProduct whoami req w) = w).
Proof.
  split; unfold addProduct, deleteProduct; unfold_exec; crunch; auto.
Qed.

(** X5.  For an admin whose request has a body object, [addProduct] answers
    201 exactly when the four fields are truthy and an image came with the
    request, and 400 otherwise. *)
Theorem addProduct_admin_decision (req : Request) (w : World)
    (props : list (string * JsVal)) :
  admin_request whoami req w ->
  body req = JObject props ->
  let value field :=
    match assoc field props with Some v => v | None => JUndefined end in
  let complete :=
    truthy (value "name") && truthy (value "description")
    && truthy (value "price") && truthy (value "quantity")
    && bool_decide (file req <> None) in
  status_of (fst (addProduct whoami req w))
    = Some (if complete then 201 else 400)
  /\ (complete = false -> snd (addProduct whoami req w) = w).
Proof.
  intros (u & Hauth & Hadmin) Hbody value complete. subst complete value.
  unfold addProduct. pass_identity Hauth. rewrite Hadmin, Hbody. simpl.
  destruct (file req) as [image|]; simpl.
  - repeat match goal with
           | |- context [truthy ?x] => destruct (truthy x)
           end; simpl; split; auto; discriminate.
  - repeat match goal with
           | |- context [truthy ?x] => destruct (truthy x)
           end; simpl; split; auto.
Qed.

(** *** What updateProduct does to the catalogue *)

Lemma overwrite_fields (vname vdescription vprice vquantity : JsVal) (p0 : Product) :
  let p := overwrite vname vdescription vprice vquantity p0 in
  name p = (if truthy vname then vname else name p0)
  /\ description p = (if truthy vdescription then vdescription else description p0)
  /\ price p = (if truthy vprice then vprice else price p0)
  /\ quantity p = (if truthy vquantity then vquantity else quantity p0)
  /\ id p = id p0 /\ imageUrl p = imageUrl p0 /\ imageLink p = imageLink p0.
Proof.
  unfold overwrite.
  destruct (truthy vname), (truthy vdescription), (truthy vprice),
    (truthy vquantity); simpl; auto 10.
Qed.

Lemma overwrite_idempotent (vname vdescription vprice vquantity : JsVal) (p0 : Product) :
  overwrite vname vdescription vprice vquantity
    (overwrite vname vdescription vprice vquantity p0)
  = overwrite vname vdescription vprice vquantity p0.
Proof.
  unfold overwrite.
  destruct (truthy vname), (truthy vdescription), (truthy vprice),
    (truthy vquantity); reflexivity.
Qed.

Lemma admin_request_users (req : Request) (w w' : World) :
  users w' = users w -> admin_request whoami req w -> admin_request whoami req w'.
Proof.
  intros Hu (u & (userData & tok & Hf & Hp & Hl) & Ha).
  exists u. split; [|assumption]. exists userData, tok. now rewrite Hu.
Qed.

(** Either [updateProduct] leaves the world alone, or the caller is an admin
    and the productId names a product. *)
Lemma updateProduct_cases (req : Request) (w : World) :
  snd (updateProduct whoami StringToNumber ObjectToNumber req w) = w
  \/ exists productId key k p0 vname vdescription vprice vquantity,
      admin_request whoami req w
      /\ property (body req) "productId" = Some productId
      /\ ToNumber StringToNumber ObjectToNumber productId = Some key
      /\ lookup_product (products w) (JNum key) = Some (k, p0)
      /\ property (body req) "name" = Some vname
      /\ property (body req) "description" = Some vdescription
      /\ property (body req) "price" = Some vprice
      /\ property (body req) "quantity" = Some vquantity.
Proof.
  destruct (whoami (authorization req)) as [|code [userData|]] eqn:Hfetch;
    try (left; unfold updateProduct; unfold_exec; rewrite Hfetch; simpl;
         try destruct (code =? 200); reflexivity).
  destruct (code =? 200) eqn:Hcode;
    [|left; unfold updateProduct; unfold_exec; rewrite Hfetch; simpl;
      now rewrite Hcode].
  apply Z.eqb_eq in Hcode. subst code.
  destruct (property userData "token") as [tok|] eqn:Htok;
    [|left; unfold updateProduct; unfold_exec; rewrite Hfetch; simpl;
      now rewrite Htok].
  destruct (lookup_user (users w) tok) as [u|] eqn:Hu;
    [|left; unfold updateProduct; unfold_exec; rewrite Hfetch; simpl;
      rewrite Htok; simpl; now rewrite Hu].
  destruct (isAdmin u) eqn:Hadm;
    [|left; unfold updateProduct; unfold_exec; rewrite Hfetch; simpl;
      rewrite Htok; simpl; rewrite Hu; simpl; now rewrite Hadm].
  assert (Hadmin : admin_request whoami req w).
  { exists u. split; [|assumption]. exists userData, tok. auto. }
  destruct (property (body req) "productId") as [productId|] eqn:Hid;
    [|left; unfold updateProduct; unfold_exec; rewrite Hfetch; simpl;
      rewrite Htok; simpl; rewrite Hu; simpl; rewrite Hadm; simpl;
      now rewrite Hid].
  destruct (ToNumber StringToNumber ObjectToNumber productId) as [key|] eqn:Hnum;
    [|left; unfold updateProduct; unfold_exec; rewrite Hfetch; simpl;
      rewrite Htok; simpl; rewrite Hu; simpl; rewrite Hadm; simpl;
      rewrite Hid; simpl; now rewrite Hnum].
  destruct (lookup_product (products w) (JNum key)) as [[k p0]|] eqn:Hfound;
    [|left; unfold updateProduct; unfold_exec; rewrite Hfetch; simpl;
      rewrite Htok; simpl; rewrite Hu; simpl; rewrite Hadm; simpl;
      rewrite Hid; simpl; rewrite Hnum; simpl; now rewrite Hfound].
  destruct (property_defined _ _ "name" _ Hid) as [vn Hn].
  destruct (property_defined _ _ "description" _ Hid) as [vd Hd].
  destruct (property_defined _ _ "price" _ Hid) as [vp Hp].
  destruct (property_defined _ _ "quantity" _ Hid) as [vq Hq].
  right. exists productId, key, k, p0, vn, vd, vp, vq. auto 10.
Qed.

(** What [updateProduct] can do to the world: nothing, or replace one stored
    record by one with the same [id], and perhaps remove one file. *)
Lemma updateProduct_effect (req : Request) (w : World) :
  let w' := snd (updateProduct whoami StringToNumber ObjectToNumber req w) in
  users w' = users w
  /\ (products w' = products w
      \/ exists k p0 p,
          JsMap.get k (products w) = Some p0 /\ id p = id p0
          /\ products w' = JsMap.set k p (products w)).
Proof.
  destruct (updateProduct_cases req w)
    as [->|(pid & key & k & p0 & vn & vd & vp & vq & Hadmin & Hid & Hnum
            & Hfound & Hn & Hd & Hp & Hq)]; [auto|].
  rewrite (updateProduct_found whoami StringToNumber ObjectToNumber
             req w _ _ _ _ _ _ _ _ Hadmin Hid Hnum Hfound Hn Hd Hp Hq).
  apply lookup_product_key in Hfound as [_ Hget].
  destruct (overwrite_fields vn vd vp vq p0) as (_ & _ & _ & _ & Hsame & _).
  destruct (file req) as [image|];
    [destruct (fs w !! imageUrl (overwrite vn vd vp vq p0))|];
    simpl; (split; [reflexivity|]); right; exists k, p0; eexists;
    (split; [exact Hget|]); (split; [|reflexivity]); exact Hsame.
Qed.

(** X6.  [updateProduct] never adds, removes or reorders a product and never
    changes the [id] stored under a key, whatever the request. *)
Theorem updateProduct_keeps_catalogue_shape (req : Request) (w : World) :
  let w' := snd (updateProduct whoami StringToNumber ObjectToNumber req w) in
  JsMap.keys (products w') = JsMap.keys (products w)
  /\ JsMap.size (products w') = JsMap.size (products w)
  /\ map id (JsMap.values (products w')) = map id (JsMap.values (products w))
  /\ users w' = users w.
Proof.
  destruct (updateProduct_effect req w) as [Hu [Hsame|(k & p0 & p & Hget & Hid & Hset)]];
    simpl in *.
  - rewrite Hsame. auto.
  - rewrite Hset. repeat split; auto.
    + apply keys_set_present. congruence.
    + apply size_set_present. congruence.
    + clear Hset Hu. revert Hget. generalize (products w) as m.
      induction m as [|[k' q] m IH]; simpl; [discriminate|].
      destruct (k' =? k); simpl.
      * intros [= ->]. now rewrite Hid.
      * intros H. now rewrite IH.
Qed.

(** X7.  When an admin sends a new image for a product whose old image file is
    no longer on disk, [updateProduct] answers 500, yet the name,
    description, price and quantity of the request are already written to the
    stored record; its imageUrl and the disk are as before. *)
Theorem updateProduct_partial_write_on_unlink_failure (req : Request) (w : World)
    (productId : JsVal) (key : JsNum) (k : Z) (p0 : Product)
    (vname vdescription vprice vquantity : JsVal) (image : File) :
  admin_request whoami req w ->
  property (body req) "productId" = Some productId ->
  ToNumber StringToNumber ObjectToNumber productId = Some key ->
  lookup_product (products w) (JNum key) = Some (k, p0) ->
  property (body req) "name" = Some vname ->
  property (body req) "description" = Some vdescription ->
  property (body req) "price" = Some vprice ->
  property (body req) "quantity" = Some vquantity ->
  file req = Some image ->
  fs w !! imageUrl p0 = None ->
  exists p,
    updateProduct whoami StringToNumber ObjectToNumber req w
      = (Sent {| status := 500; sent := Text "Error interno del servidor" |},
         with_products (JsMap.set k p (products w)) w)
    /\ name p = (if truthy vname then vname else name p0)
    /\ description p = (if truthy vdescription then vdescription else description p0)
    /\ price p = (if truthy vprice then vprice else price p0)
    /\ quantity p = (if truthy vquantity then vquantity else quantity p0)
    /\ imageUrl p = imageUrl p0.
Proof.
  intros Hadmin Hid Hnum Hfound Hn Hd Hp Hq Hfile Hgone.
  rewrite (updateProduct_found whoami StringToNumber ObjectToNumber
             req w _ _ _ _ _ _ _ _ Hadmin Hid Hnum Hfound Hn Hd Hp Hq).
  destruct (overwrite_fields vname vdescription vprice vquantity p0)
    as (H1 & H2 & H3 & H4 & _ & Hurl & _).
  rewrite Hfile. simpl. rewrite Hurl, Hgone.
  eexists. split; [reflexivity|]. auto 10.
Qed.

(** X8.  When an admin sends a new image for a product whose old image file is
    on disk, [updateProduct] answers 200, removes the old file and nothing
    else from the disk and points the record at the new path.  A
    [getProductById] right after sends the new file, provided it was stored
    under another path than the old one; when the two paths are the same the
    new file is the one removed, and [getProductById] ends in the exception
    of the failed read. *)
Theorem updateProduct_replaces_image (req : Request) (w : World)
    (productId : JsVal) (key : JsNum) (k : Z) (p0 : Product)
    (vname vdescription vprice vquantity : JsVal) (image : File)
    (old : list byte) (req' : Request) :
  admin_request whoami req w ->
  property (body req) "productId" = Some productId ->
  ToNumber StringToNumber ObjectToNumber productId = Some key ->
  lookup_product (products w) (JNum key) = Some (k, p0) ->
  property (body req) "name" = Some vname ->
  property (body req) "description" = Some vdescription ->
  property (body req) "price" = Some vprice ->
  property (body req) "quantity" = Some vquantity ->
  file req = Some image ->
  fs w !! imageUrl p0 = Some old ->
  valid_integer (params_id req') = Some k ->
  let imagePath := "src/uploads/" +:+ filename image in
  exists p w',
    updateProduct whoami StringToNumber ObjectToNumber req w
      = (Sent {| status := 200; sent := ProductJson p |}, w')
    /\ JsMap.get k (products w') = Some p
    /\ imageUrl p = imagePath
    /\ fs w' = base.delete (imageUrl p0) (fs w)
    /\ (forall content,
          imagePath <> imageUrl p0 ->
          fs w !! imagePath = Some content ->
          getProductById req' w'
            = (Sent {| status := 200;
                       sent := ProductWithImageJson
                                 {| product := p; image := base64 content |} |},
               w'))
    /\ (imagePath = imageUrl p0 ->
          getProductById req' w' = (Uncaught (ENOENT imagePath), w')).
Proof.
  intros Hadmin Hid Hnum Hfound Hn Hd Hp Hq Hfile Hold Hvalid imagePath.
  rewrite (updateProduct_found whoami StringToNumber ObjectToNumber
             req w _ _ _ _ _ _ _ _ Hadmin Hid Hnum Hfound Hn Hd Hp Hq).
  destruct (overwrite_fields vname vdescription vprice vquantity p0)
    as (_ & _ & _ & _ & _ & Hurl & _).
  rewrite Hfile. simpl. rewrite Hurl, Hold.
  apply parseInt_valid_integer in Hvalid.
  eexists. eexists. split; [reflexivity|]. simpl.
  split; [apply get_set_same|]. split; [reflexivity|]. split; [reflexivity|].
  split.
  - intros content Hne Hnew.
    rewrite (getProductById_int _ _ _ Hvalid). simpl.
    rewrite get_set_same. simpl.
    rewrite lookup_delete_ne by (intros E; apply Hne; symmetry; exact E).
    fold imagePath. now rewrite Hnew.
  - intros Heq.
    rewrite (getProductById_int _ _ _ Hvalid). simpl.
    rewrite get_set_same. simpl. fold imagePath. rewrite <- Heq.
    now rewrite lookup_delete_eq.
Qed.

(** X9.  An admin's [updateProduct] with no new image does nothing more when
    it is sent a second time: the answer and the world are those of the first
    time. *)
Theorem updateProduct_idempotent (req : Request) (w : World)
    (productId : JsVal) (key : JsNum) (k : Z) (p0 : Product) :
  admin_request whoami req w ->
  property (body req) "productId" = Some productId ->
  ToNumber StringToNumber ObjectToNumber productId = Some key ->
  lookup_product (products w) (JNum key) = Some (k, p0) ->
  file req = None ->
  let first := updateProduct whoami StringToNumber ObjectToNumber req w in
  updateProduct whoami StringToNumber ObjectToNumber req (snd first) = first.
Proof.
  intros Hadmin Hid Hnum Hfound Hfile.
  destruct (property_defined _ _ "name" _ Hid) as [vn Hn].
  destruct (property_defined _ _ "description" _ Hid) as [vd Hd].
  destruct (property_defined _ _ "price" _ Hid) as [vp Hp].
  destruct (property_defined _ _ "quantity" _ Hid) as [vq Hq].
  simpl.
  rewrite (updateProduct_found whoami StringToNumber ObjectToNumber
             req w _ _ _ _ _ _ _ _ Hadmin Hid Hnum Hfound Hn Hd Hp Hq).
  rewrite Hfile. simpl.
  set (p := overwrite vn vd vp vq p0).
  set (w1 := with_products (JsMap.set k p (products w)) w).
  assert (Hadmin1 : admin_request whoami req w1)
    by (apply admin_request_users with w; auto).
  assert (Hfound1 : lookup_product (products w1) (JNum key) = Some (k, p)).
  { apply lookup_product_key in Hfound as [Hkey _].
    unfold lookup_product. rewrite Hkey. simpl. now rewrite get_set_same. }
  rewrite (updateProduct_found whoami StringToNumber ObjectToNumber
             req w1 _ _ _ _ _ _ _ _ Hadmin1 Hid Hnum Hfound1 Hn Hd Hp Hq).
  rewrite Hfile. subst p. rewrite overwrite_idempotent. subst w1. simpl.
  unfold with_products. simpl. now rewrite set_set.
Qed.

(** *** deleteProduct and the type of productId *)

(** X10.  [deleteProduct] looks the productId up as it arrives.  A truthy
    productId that is not a number, the string of a form field for one, names
    no product: the admin gets 404 and the store is untouched, whatever it
    holds.  [updateProduct] converts with [Number] first, and so finds the
    product that the same string names. *)
Theorem deleteProduct_non_number_id (req : Request) (w : World) (productId : JsVal) :
  admin_request whoami req w ->
  property (body req) "productId" = Some productId ->
  truthy productId = true ->
  (forall n, productId <> JNum n) ->
  deleteProduct whoami req w
    = (Sent {| status := 404; sent := Text "Producto no encontrado" |}, w)
  /\ (forall key k p0,
        ToNumber StringToNumber ObjectToNumber productId = Some key ->
        lookup_product (products w) (JNum key) = Some (k, p0) ->
        file req = None ->
        status_of (fst (updateProduct whoami StringToNumber ObjectToNumber req w))
          = Some 200).
Proof.
  intros Hadmin Hid Htruthy Hnot. split.
  - apply deleteProduct_missing with productId; auto.
    unfold lookup_product.
    destruct productId as [| | |n| |]; try reflexivity. now destruct (Hnot n).
  - intros key k p0 Hnum Hfound Hfile.
    destruct (property_defined _ _ "name" _ Hid) as [vn Hn].
    destruct (property_defined _ _ "description" _ Hid) as [vd Hd].
    destruct (property_defined _ _ "price" _ Hid) as [vp Hp].
    destruct (property_defined _ _ "quantity" _ Hid) as [vq Hq].
    rewrite (updateProduct_found whoami StringToNumber ObjectToNumber
               req w _ _ _ _ _ _ _ _ Hadmin Hid Hnum Hfound Hn Hd Hp Hq).
    now rewrite Hfile.
Qed.

(** X11.  Once an admin has deleted a product, the same [deleteProduct] request
    answers 404 and changes nothing, and so does an admin's [updateProduct]
    for that productId. *)
Theorem deleted_product_is_gone (req : Request) (w : World) (productId : JsVal)
    (k : Z) (p : Product) (req' : Request) :
  admin_request whoami req w ->
  ids_positive (products w) ->
  property (body req) "productId" = Some productId ->
  lookup_product (products w) productId = Some (k, p) ->
  let w' := snd (deleteProduct whoami req w) in
  deleteProduct whoami req w'
    = (Sent {| status := 404; sent := Text "Producto no encontrado" |}, w')
  /\ (admin_request whoami req' w ->
      property (body req') "productId" = Some productId ->
      updateProduct whoami StringToNumber ObjectToNumber req' w'
        = (Sent {| status := 404; sent := Text "Producto no encontrado" |}, w')).
Proof.
  intros Hadmin Hpos Hid Hfound.
  destruct (lookup_product_key _ _ _ _ Hfound) as [Hkey Hget].
  assert (Htruthy : truthy productId = true).
  { apply key_of_truthy with k; auto.
    pose proof (ids_positive_get _ _ _ Hpos Hget). lia. }
  simpl.
  rewrite (deleteProduct_found whoami req w productId k p Hadmin Hid Htruthy Hfound).
  simpl.
  set (w' := with_products (JsMap.delete k (products w)) w).
  assert (Hgone : lookup_product (products w') productId = None).
  { unfold lookup_product. rewrite Hkey. simpl. now rewrite get_delete_same. }
  split.
  - apply deleteProduct_missing with productId; auto.
  - intros (u & Hauth & Hadm) Hid'.
    assert (Hnum : exists n, productId = JNum n).
    { destruct productId as [| | |n| |]; try discriminate. eauto. }
    destruct Hnum as [n ->].
    unfold updateProduct.
    pass_identity Hauth. rewrite Hadm. simpl. rewrite Hid'. simpl.
    unfold w' in Hgone. simpl in Hgone. now rewrite Hgone.
Qed.

(** *** IDs over the life of the catalogue *)

Lemma size_delete_present {V : Type} (m : JsMap.t V) (k : Z) :
  JsMap.wf m -> JsMap.get k m <> None ->
  JsMap.size (JsMap.delete k m) = JsMap.size m - 1.
Proof.
  unfold JsMap.wf, JsMap.size.
  induction m as [|[k' v'] m IH]; simpl; [congruence|].
  rewrite NoDup_cons. intros [Hk Hm].
  destruct (k' =? k) eqn:E.
  - intros _. apply Z.eqb_eq in E. subst k'.
    apply get_none_not_key in Hk. rewrite (delete_absent _ _ Hk). lia.
  - intros Hget. simpl. specialize (IH Hm Hget).
    unfold JsMap.size in IH. lia.
Qed.

Lemma dense_wf (n : nat) (m : JsMap.t Product) : dense n m -> JsMap.wf m.
Proof.
  unfold dense, JsMap.wf. intros ->.
  apply (NoDup_fmap_2 Z.of_nat), NoDup_seq.
Qed.

Lemma dense_size (n : nat) (m : JsMap.t Product) :
  dense n m -> JsMap.size m = Z.of_nat n.
Proof.
  unfold dense, JsMap.size. intros H.
  assert (E : length m = length (JsMap.keys m))
    by (unfold JsMap.keys; now rewrite length_map).
  now rewrite E, H, length_map, length_seq.
Qed.

Lemma dense_key (n : nat) (m : JsMap.t Product) (k : Z) :
  dense n m -> (JsMap.get k m <> None <-> 1 <= k <= Z.of_nat n).
Proof.
  intros H.
  assert (Hin : k ∈ JsMap.keys m <-> 1 <= k <= Z.of_nat n).
  { rewrite H, list_elem_of_In, in_map_iff. split.
    - intros (i & <- & Hi). apply in_seq in Hi. lia.
    - intros Hk. exists (Z.to_nat k). split; [lia|]. apply in_seq. lia. }
  rewrite <- Hin. pose proof (get_none_not_key m k) as Hnone.
  destruct (JsMap.get k m).
  - split; [|congruence]. intros _.
    destruct (decide (k ∈ JsMap.keys m)) as [?|Hout]; auto.
    apply Hnone in Hout. discriminate.
  - split; [congruence|]. intros Hk. exfalso. now apply (proj1 Hnone).
Qed.

(** X12.  [addProduct] takes the ID [size + 1] whether it is free or not.  When
    it is free the store grows by the new record and keeps every other; when a
    product already sits under it, that product is replaced by the new one and
    the store does not grow. *)
Theorem addProduct_fresh_or_overwrite (req : Request) (w : World)
    (vname vdescription vprice vquantity : JsVal) (image : File) :
  admin_request whoami req w ->
  property (body req) "name" = Some vname ->
  property (body req) "description" = Some vdescription ->
  property (body req) "price" = Some vprice ->
  property (body req) "quantity" = Some vquantity ->
  truthy vname = true -> truthy vdescription = true ->
  truthy vprice = true -> truthy vquantity = true ->
  file req = Some image ->
  let k := JsMap.size (products w) + 1 in
  let w' := snd (addProduct whoami req w) in
  exists p,
    fst (addProduct whoami req w) = Sent {| status := 201; sent := ProductJson p |}
    /\ JsMap.get k (products w') = Some p
    /\ (forall k', k' <> k ->
          JsMap.get k' (products w') = JsMap.get k' (products w))
    /\ (JsMap.get k (products w) = None ->
          JsMap.size (products w') = JsMap.size (products w) + 1)
    /\ (forall old, JsMap.get k (products w) = Some old ->
          JsMap.size (products w') = JsMap.size (products w)
          /\ JsMap.keys (products w') = JsMap.keys (products w)).
Proof.
  intros Hadmin Hn Hd Hp Hq Tn Td Tp Tq Hf. simpl.
  rewrite (addProduct_complete whoami req w _ _ _ _ image Hadmin Hn Hd Hp Hq Hf
             Tn Td Tp Tq). simpl.
  eexists. split; [reflexivity|]. split; [apply get_set_same|].
  split; [intros k' Hne; apply get_set_other; congruence|].
  split.
  - intros Hfree. now apply size_set_fresh.
  - intros old Hold. split.
    + apply size_set_present. congruence.
    + apply keys_set_present. congruence.
Qed.

(** X13.  In a catalogue whose keys are 1 to n, what additions alone leave, an
    admin's complete [addProduct] gets the ID n + 1, replaces nothing, and
    leaves the keys 1 to n + 1: without a deletion no two products ever share
    an ID. *)
Theorem addProduct_dense_no_collision (req : Request) (w : World) (n : nat)
    (vname vdescription vprice vquantity : JsVal) (image : File) :
  dense n (products w) ->
  admin_request whoami req w ->
  property (body req) "name" = Some vname ->
  property (body req) "description" = Some vdescription ->
  property (body req) "price" = Some vprice ->
  property (body req) "quantity" = Some vquantity ->
  truthy vname = true -> truthy vdescription = true ->
  truthy vprice = true -> truthy vquantity = true ->
  file req = Some image ->
  let w' := snd (addProduct whoami req w) in
  exists p,
    fst (addProduct whoami req w) = Sent {| status := 201; sent := ProductJson p |}
    /\ id p = Z.of_nat n + 1
    /\ JsMap.get (id p) (products w) = None
    /\ dense (S n) (products w')
    /\ (forall k q, JsMap.get k (products w) = Some q ->
          JsMap.get k (products w') = Some q).
Proof.
  intros Hdense Hadmin Hn Hd Hp Hq Tn Td Tp Tq Hf. simpl.
  rewrite (addProduct_complete whoami req w _ _ _ _ image Hadmin Hn Hd Hp Hq Hf
             Tn Td Tp Tq). cbn [fst snd products with_products].
  assert (Hfree : JsMap.get (Z.of_nat n + 1) (products w) = None).
  { destruct (JsMap.get (Z.of_nat n + 1) (products w)) eqn:E; auto.
    assert (Hk : JsMap.get (Z.of_nat n + 1) (products w) <> None) by congruence.
    apply (dense_key _ _ _ Hdense) in Hk. lia. }
  pose proof (dense_size _ _ Hdense) as Hsize.
  eexists. split; [reflexivity|]. unfold new_product. cbn [id].
  rewrite !Hsize. split; [reflexivity|].
  split; [exact Hfree|]. split.
  - unfold dense in *. rewrite keys_set_fresh by assumption.
    rewrite Hdense, seq_S, map_app. simpl. do 2 f_equal. lia.
  - intros k q Hget. rewrite get_set_other; auto. congruence.
Qed.

(** X14.  In a catalogue with keys 1 to n, once an admin has deleted the product
    k, the next complete [addProduct] gets the ID n.  If k was n the freed ID
    is handed out again; if k was smaller, n is the ID of a product still in
    the store, and that product is replaced: the catalogue then holds n - 1
    products although n + 1 were added. *)
Theorem delete_then_add_reuses_id (del add : Request) (w : World) (n : nat) (k : Z)
    (vname vdescription vprice vquantity : JsVal) (image : File) :
  dense n (products w) ->
  1 <= k <= Z.of_nat n ->
  admin_request whoami del w ->
  property (body del) "productId" = Some (JNum (of_int k)) ->
  admin_request whoami add w ->
  property (body add) "name" = Some vname ->
  property (body add) "description" = Some vdescription ->
  property (body add) "price" = Some vprice ->
  property (body add) "quantity" = Some vquantity ->
  truthy vname = true -> truthy vdescription = true ->
  truthy vprice = true -> truthy vquantity = true ->
  file add = Some image ->
  let w1 := snd (deleteProduct whoami del w) in
  let w2 := snd (addProduct whoami add w1) in
  exists p,
    status_of (fst (deleteProduct whoami del w)) = Some 200
    /\ fst (addProduct whoami add w1)
       = Sent {| status := 201; sent := ProductJson p |}
    /\ id p = Z.of_nat n
    /\ JsMap.get (Z.of_nat n) (products w2) = Some p
    /\ (k < Z.of_nat n ->
        JsMap.get (Z.of_nat n) (products w1) = JsMap.get (Z.of_nat n) (products w)
        /\ JsMap.get (Z.of_nat n) (products w1) <> None
        /\ JsMap.size (products w2) = Z.of_nat n - 1).
Proof.
  intros Hdense Hk Hadel Hid Haadd Hn Hd Hp Hq Tn Td Tp Tq Hf.
  assert (Hpresent : JsMap.get k (products w) <> None)
    by now apply (dense_key _ _ _ Hdense).
  destruct (JsMap.get k (products w)) as [q|] eqn:Hget; [|congruence].
  assert (Hfound : lookup_product (products w) (JNum (of_int k)) = Some (k, q)).
  { unfold lookup_product. rewrite key_of_int. simpl. now rewrite Hget. }
  assert (Htruthy : truthy (JNum (of_int k)) = true).
  { apply key_of_truthy with k; [apply key_of_int | lia]. }
  simpl.
  rewrite (deleteProduct_found whoami del w _ k q Hadel Hid Htruthy Hfound).
  simpl.
  set (w1 := with_products (JsMap.delete k (products w)) w).
  assert (Hsize1 : JsMap.size (products w1) = Z.of_nat n - 1).
  { simpl. rewrite size_delete_present; [|now apply dense_wf with n|congruence].
    now rewrite (dense_size _ _ Hdense). }
  assert (Haadd1 : admin_request whoami add w1)
    by (apply admin_request_users with w; auto).
  rewrite (addProduct_complete whoami add w1 _ _ _ _ image Haadd1 Hn Hd Hp Hq Hf
             Tn Td Tp Tq).
  cbn [fst snd]. unfold new_product. rewrite Hsize1.
  replace (Z.of_nat n - 1 + 1) with (Z.of_nat n) by lia.
  eexists. split; [reflexivity|]. split; [reflexivity|]. cbn [id].
  split; [reflexivity|]. split; [apply get_set_same|].
  intros Hlt.
  assert (Hother : JsMap.get (Z.of_nat n) (products w1)
                   = JsMap.get (Z.of_nat n) (products w)).
  { simpl. apply get_delete_other. lia. }
  assert (Hn_present : JsMap.get (Z.of_nat n) (products w) <> None)
    by (apply (dense_key _ _ _ Hdense); lia).
  assert (Hn_present1 : JsMap.get (Z.of_nat n) (products w1) <> None)
    by (intros E; apply Hn_present; rewrite <- Hother; exact E).
  split; [exact Hother|]. split; [exact Hn_present1|].
  cbn [products with_products].
  rewrite size_set_present; [exact Hsize1 | exact Hn_present1].
Qed.

(** *** What every run keeps *)

Lemma ids_match_get (m : JsMap.t Product) (k : Z) (p : Product) :
  ids_match m -> JsMap.get k m = Some p -> id p = k.
Proof.
  unfold ids_match.
  induction m as [|[k' q] m IH]; simpl; [discriminate|].
  intros Hall. apply Forall_cons in Hall as [Hq Hm].
  destruct (k' =? k) eqn:E.
  - apply Z.eqb_eq in E. intros [= <-]. simpl in Hq. congruence.
  - now apply IH.
Qed.

Lemma ids_match_set (m : JsMap.t Product) (k : Z) (p : Product) :
  ids_match m -> id p = k -> ids_match (JsMap.set k p m).
Proof.
  unfold ids_match. intros Hall Hid.
  induction m as [|[k' q] m IH]; simpl.
  - repeat constructor. exact Hid.
  - apply Forall_cons in Hall as [Hq Hm].
    destruct (k' =? k); constructor; auto.
Qed.

Lemma ids_match_delete (m : JsMap.t Product) (k : Z) :
  ids_match m -> ids_match (JsMap.delete k m).
Proof.
  unfold ids_match. intros Hall.
  induction m as [|[k' q] m IH]; simpl; auto.
  apply Forall_cons in Hall as [Hq Hm].
  destruct (k' =? k); auto.
Qed.

(** What [addProduct] can do to the world: nothing, or store one record under
    its own [id], the size of the store plus one. *)
Lemma addProduct_effect (req : Request) (w : World) :
  let w' := snd (addProduct whoami req w) in
  users w' = users w /\ fs w' = fs w
  /\ (products w' = products w
      \/ exists p, id p = JsMap.size (products w) + 1
           /\ products w' = JsMap.set (id p) p (products w)).
Proof.
  unfold addProduct. unfold_exec. crunch;
    (split; [reflexivity|]); (split; [reflexivity|]);
    first [ left; reflexivity
          | right;
            match goal with
            | |- context [JsMap.set _ ?p _] => exists p; split; reflexivity
            end ].
Qed.

Lemma deleteProduct_effect (req : Request) (w : World) :
  let w' := snd (deleteProduct whoami req w) in
  users w' = users w /\ fs w' = fs w
  /\ (products w' = products w
      \/ exists k, products w' = JsMap.delete k (products w)).
Proof.
  unfold deleteProduct. unfold_exec. crunch;
    (split; [reflexivity|]); (split; [reflexivity|]);
    first [ left; reflexivity | right; eexists; reflexivity ].
Qed.

Lemma after_keeps (c : Call) (w : World) :
  store_ok (products w) -> ids_match (products w) ->
  let w' := after whoami StringToNumber ObjectToNumber c w in
  store_ok (products w') /\ ids_match (products w') /\ users w' = users w.
Proof.
  intros Hok Hids. destruct c as [req|req|req|req|req|change]; simpl.
  - destruct (addProduct_effect req w) as (Hu & _ & [->|(p & Hid & ->)]); auto.
    split; [|split]; auto.
    + apply store_ok_set; auto. rewrite Hid. unfold JsMap.size. lia.
    + apply ids_match_set; auto.
  - destruct (handlers_keep_store_ok whoami StringToNumber ObjectToNumber req w Hok)
      as (_ & _ & _ & -> & _). auto.
  - destruct (deleteProduct_effect req w) as (Hu & _ & [->|(k & ->)]); auto.
    split; [|split]; auto.
    + now apply store_ok_delete.
    + now apply ids_match_delete.
  - destruct (handlers_keep_store_ok whoami StringToNumber ObjectToNumber req w Hok)
      as (_ & _ & _ & _ & ->). auto.
  - destruct (updateProduct_effect req w)
      as (Hu & [->|(k & p0 & p & Hget & Hid & ->)]); auto.
    pose proof (ids_match_get _ _ _ Hids Hget) as Hk.
    split; [|split]; auto.
    + apply store_ok_set; auto. eapply ids_positive_get; [apply Hok | exact Hget].
    + apply ids_match_set; auto. congruence.
  - auto.
Qed.

(** X15.  Whatever requests reach the five handlers, and whatever happens to
    the disk in between, a catalogue that starts empty (or in any state with
    these properties) keeps one entry per key, positive keys, and in every
    record the [id] it is stored under; and no handler ever changes the user
    map. *)
Theorem run_keeps_catalogue_sound (cs : list Call) (w : World) :
  store_ok (products w) ->
  ids_match (products w) ->
  let w' := run whoami StringToNumber ObjectToNumber cs w in
  store_ok (products w') /\ ids_match (products w') /\ users w' = users w.
Proof.
  revert w. induction cs as [|c cs IH]; intros w Hok Hids; simpl; auto.
  destruct (after_keeps c w Hok Hids) as (Hok' & Hids' & Hu).
  destruct (IH _ Hok' Hids') as (Hok'' & Hids'' & Hu'').
  unfold run in Hok'', Hids'', Hu''. split; [|split]; auto.
  etransitivity; [exact Hu'' | exact Hu].
Qed.

(** *** The id parameter of getProductById *)

Ltac step_append :=
  repeat first
    [ progress change (String.append EmptyString ?t) with t
    | progress change (String.append (String ?a ?s) ?t)
        with (String a (String.append s t)) ].

Lemma parse_digits_uint_then (u : Decimal.uint) (c : ascii) (rest : string) (acc : Z) :
  digit_value 10 c = None ->
  parse_digits 10 (NilEmpty.string_of_uint u +:+ String c rest) (Some acc)
    = Some (horner u acc).
Proof.
  intros Hc. revert acc.
  induction u; intros acc;
    cbn [NilEmpty.string_of_uint]; step_append; cbn [parse_digits horner];
    [now rewrite Hc|..];
    match goal with
    | |- context [digit_value 10 ?d] =>
        change (digit_value 10 d) with (Some (Z.of_N (N_of_ascii d) - 48))
    end;
    cbn [N_of_ascii]; simpl Z.sub; apply IHu.
Qed.

Lemma parseInt_uint_then (u : Decimal.uint) (c : ascii) (rest : string) :
  u <> Decimal.Nil ->
  digit_value 10 c = None -> c <> "x"%char -> c <> "X"%char ->
  parseInt (NilEmpty.string_of_uint u +:+ String c rest) = of_int (Z.of_uint u)
  /\ parseInt (String "-" (NilEmpty.string_of_uint u +:+ String c rest))
     = of_int (- Z.of_uint u).
Proof.
  intros Hu Hc Hx HX. rewrite horner_of_uint.
  assert (H : forall sign,
    match parse_digits 10 (NilEmpty.string_of_uint u +:+ String c rest) None with
    | None => NaN
    | Some mathInt => of_int (sign * mathInt)
    end = of_int (sign * horner u 0)).
  { intros sign. destruct u; try contradiction;
      cbn [NilEmpty.string_of_uint]; step_append; cbn [parse_digits horner];
      match goal with
      | |- context [digit_value 10 ?d] =>
          change (digit_value 10 d) with (Some (Z.of_N (N_of_ascii d) - 48))
      end;
      cbn [N_of_ascii]; simpl Z.sub; now rewrite parse_digits_uint_then. }
  replace (- horner u 0) with (-1 * horner u 0) by lia.
  replace (of_int (horner u 0)) with (of_int (1 * horner u 0)) by (f_equal; lia).
  rewrite <- !H.
  destruct u as [|u|u|u|u|u|u|u|u|u|u]; try contradiction;
    try (split; reflexivity).
  destruct u; try (split; reflexivity).
  destruct c as [b0 b1 b2 b3 b4 b5 b6 b7].
  destruct b0, b1, b2, b3, b4, b5, b6, b7;
    try (split; reflexivity);
    first [ exfalso; apply Hx; reflexivity
          | exfalso; apply HX; reflexivity
          | vm_compute in Hc; discriminate Hc ].
Qed.

Lemma parseInt_valid_integer_then (s : string) (z : Z) (c : ascii) (rest : string) :
  valid_integer s = Some z ->
  digit_value 10 c = None -> c <> "x"%char -> c <> "X"%char ->
  parseInt (s +:+ String c rest) = of_int z.
Proof.
  unfold valid_integer. intros Hs Hc Hx HX.
  destruct (NilZero.int_of_string s) as [d|] eqn:E; [|discriminate].
  injection Hs as <-.
  pose proof (NilZero.sis s d E) as Hsd.
  destruct s as [|a s']; [discriminate|].
  unfold NilZero.int_of_string in E.
  destruct (Ascii.eqb a "-") eqn:Ea.
  - destruct (NilZero.uint_of_string s') as [u|] eqn:Eu; [|discriminate].
    injection E as <-. simpl in Hsd. injection Hsd as Ha Hs'.
    assert (Hu : u <> Decimal.Nil).
    { intros ->. simpl in Hs'. subst s'. discriminate. }
    subst a. rewrite <- Hs'.
    destruct u; try contradiction;
      apply (parseInt_uint_then _ c rest); auto; discriminate.
  - destruct (NilZero.uint_of_string (String a s')) as [u|] eqn:Eu; [|discriminate].
    injection E as <-. simpl in Hsd.
    assert (Hu : u <> Decimal.Nil).
    { intros ->. simpl in Hsd. injection Hsd as <- <-. discriminate. }
    rewrite <- Hsd.
    destruct u; try contradiction;
      apply (parseInt_uint_then _ c rest); auto; discriminate.
Qed.

(** X16.  [getProductById] reads its id with [parseInt], which stops at the
    first character that is not a digit: a valid integer followed by any text
    that starts with a character other than a digit, [x] or [X] gets the
    answer the integer alone gets. *)
Theorem getProductById_ignores_trailing_text (req req' : Request) (w : World)
    (z : Z) (c : ascii) (rest : string) :
  valid_integer (params_id req) = Some z ->
  digit_value 10 c = None -> c <> "x"%char -> c <> "X"%char ->
  params_id req' = params_id req +:+ String c rest ->
  getProductById req' w = getProductById req w.
Proof.
  intros Hvalid Hc Hx HX Hid.
  pose proof (parseInt_valid_integer_then _ _ c rest Hvalid Hc Hx HX) as Hparse'.
  rewrite <- Hid in Hparse'.
  apply parseInt_valid_integer in Hvalid.
  now rewrite (getProductById_int req' w z Hparse'),
    (getProductById_int req w z Hvalid).
Qed.

(** *** The two read handlers *)

Lemma get_in_values (m : JsMap.t Product) (k : Z) (p : Product) :
  JsMap.get k m = Some p -> p ∈ JsMap.values m.
Proof.
  induction m as [|[k' q] m IH]; simpl; [discriminate|].
  destruct (k' =? k).
  - intros [= ->]. apply list_elem_of_here.
  - intros H. apply list_elem_of_further. auto.
Qed.

Lemma Forall2_zip_with_elem {A B C : Type} (P : A -> B -> Prop) (f : A -> B -> C)
    (l : list A) (l' : list B) (x : A) :
  Forall2 P l l' -> x ∈ l ->
  exists y, P x y /\ f x y ∈ zip_with f l l'.
Proof.
  induction 1 as [|a b l l' Hab _ IH]; intros Hin.
  - now apply elem_of_nil in Hin.
  - apply elem_of_cons in Hin as [->|Hin].
    + exists b. split; [assumption|]. apply list_elem_of_here.
    + destruct (IH Hin) as (y & Hy & Hin'). exists y. split; [assumption|].
      now apply list_elem_of_further.
Qed.

(** X17.  For an id that is a valid integer and names a stored product,
    [getProductById] answers 200 with the record as stored and its image file
    in base64, which decodes to the file, when the file can be read; when it
    cannot, the exception of the read leaves the handler, which has no catch,
    and no response is sent.  The world is untouched either way. *)
Theorem getProductById_found (req : Request) (w : World) (z : Z) (p : Product) :
  valid_integer (params_id req) = Some z ->
  JsMap.get z (products w) = Some p ->
  (forall content,
      fs w !! imageUrl p = Some content ->
      getProductById req w
        = (Sent {| status := 200;
                   sent := ProductWithImageJson
                             {| product := p; image := base64 content |} |}, w)
      /\ base64_decode (base64 content) = Some content)
  /\ (fs w !! imageUrl p = None ->
      getProductById req w = (Uncaught (ENOENT (imageUrl p)), w)).
Proof.
  intros Hvalid Hget. apply parseInt_valid_integer in Hvalid.
  rewrite (getProductById_int _ _ _ Hvalid), Hget. split.
  - intros content ->. split; [reflexivity | apply base64_decode_encode].
  - now intros ->.
Qed.

(** X18.  When every image file can be read, a product that [getProductById]
    sends is also in the array [getProducts] sends, with the same base64
    image, which decodes to the file on disk; the one difference is that
    [getProducts] drops the record's imageLink and [getProductById] keeps
    it. *)
Theorem read_handlers_agree (req req0 : Request) (w : World)
    (contents : list (list byte)) (z : Z) (p : Product) :
  Forall2 (fun p c => fs w !! imageUrl p = Some c)
    (JsMap.values (products w)) contents ->
  valid_integer (params_id req) = Some z ->
  JsMap.get z (products w) = Some p ->
  exists content listing,
    fs w !! imageUrl p = Some content
    /\ getProductById req w
       = (Sent {| status := 200;
                  sent := ProductWithImageJson
                            {| product := p; image := base64 content |} |}, w)
    /\ getProducts req0 w
       = (Sent {| status := 200; sent := ProductArrayJson listing |}, w)
    /\ {| product := delete_imageLink p; image := base64 content |} ∈ listing
    /\ base64_decode (base64 content) = Some content.
Proof.
  intros Hall Hvalid Hget.
  destruct (Forall2_zip_with_elem _ with_image _ _ p Hall (get_in_values _ _ _ Hget))
    as (content & Hcontent & Hin).
  exists content. eexists. split; [exact Hcontent|].
  apply parseInt_valid_integer in Hvalid.
  rewrite (getProductById_int _ _ _ Hvalid), Hget, Hcontent.
  split; [reflexivity|].
  rewrite (getProducts_all_readable req0 w contents Hall).
  split; [reflexivity|]. split; [exact Hin|]. apply base64_decode_encode.
Qed.

(** X19.  When every image file can be read, [getProducts] sends one entry per
    product, in the order the products were first stored, each with the id of
    the record, no imageLink, and an image that decodes to the content of the
    record's file. *)
Theorem getProducts_listing (req : Request) (w : World)
    (contents : list (list byte)) :
  Forall2 (fun p c => fs w !! imageUrl p = Some c)
    (JsMap.values (products w)) contents ->
  exists listing,
    getProducts req w
      = (Sent {| status := 200; sent := ProductArrayJson listing |}, w)
    /\ Z.of_nat (length listing) = JsMap.size (products w)
    /\ map (fun e => id (product e)) listing = map id (JsMap.values (products w))
    /\ Forall (fun e => imageLink (product e) = None) listing
    /\ Forall2 (fun e c => base64_decode (image e) = Some c) listing contents.
Proof.
  intros Hall. rewrite (getProducts_all_readable req w contents Hall).
  eexists. split; [reflexivity|].
  unfold JsMap.size, JsMap.values in *. 
  assert (Hlen : length (products w) = length (map snd (products w)))
    by now rewrite length_map.
  rewrite Hlen. clear Hlen. revert Hall.
  generalize (map snd (products w)) as ps. intros ps Hall.
  induction Hall as [|q c ps cs Hq _ IH]; simpl.
  - repeat split; constructor.
  - destruct IH as (Hlen & Hids & Hlinks & Hdec). repeat split.
    + simpl in Hlen. lia.
    + now rewrite Hids.
    + constructor; auto.
    + constructor; auto. apply base64_decode_encode.
Qed.

(** *** Names of stored uploads *)

Lemma length_append (s t : string) :
  String.length (s +:+ t) = (String.length s + String.length t)%nat.
Proof.
  induction s as [|c s IH]; [reflexivity|].
  change (String c s +:+ t) with (String c (s +:+ t)). simpl. now rewrite IH.
Qed.

Lemma append_inv_tail (s1 s2 t : string) : s1 +:+ t = s2 +:+ t -> s1 = s2.
Proof.
  revert s2. induction s1 as [|c s1 IH]; intros [|d s2] H; auto.
  - apply (f_equal String.length) in H. rewrite !length_append in H.
    simpl in H. lia.
  - apply (f_equal String.length) in H. rewrite !length_append in H.
    simpl in H. lia.
  - change (String c (s1 +:+ t) = String d (s2 +:+ t)) in H.
    injection H as -> H. f_equal. auto.
Qed.

(** X20.  For one extension the stored file name determines the clock: two
    uploads get the same name, and the later overwrites the earlier, only when
    [Date.now()] gave both the same millisecond. *)
Theorem storage_filename_injective (now now' : Z) (ext : string) :
  storage_filename now ext = storage_filename now' ext <-> now = now'.
Proof.
  split; [|now intros ->].
  unfold storage_filename. intros H. apply append_inv_tail in H.
  apply DecimalZ.to_int_inj.
  assert (Hnonnil : forall z, Z.to_int z <> Decimal.Pos Decimal.Nil
                              /\ Z.to_int z <> Decimal.Neg Decimal.Nil).
  { intros [|q|q]; simpl; split; try discriminate;
      intros [= E]; now apply DecimalPos.Unsigned.to_uint_nonnil in E. }
  apply (f_equal NilZero.int_of_string) in H.
  rewrite !NilZero.isi in H by apply Hnonnil.
  now injection H.
Qed.

End Coverage.

(** ** Instances on the running shop *)

(** [Number] on the strings the instances send, plain decimal integers. *)
Definition decimal_to_number (s : string) : JsNum :=
  match valid_integer s with
  | Some z => of_int z
  | None => NaN
  end.

Definition second_image : File := {| filename := "1700000000002.png" |}.

Definition third_image : File := {| filename := "1700000000003.png" |}.

(** The bytes of "Ma". *)
Definition thumbnail : list byte := [x4d; x61].

(** Widget and gadget, each with its picture on disk. *)
Definition two_products : World :=
  snd (addProduct whoami (request admin_header gadget (Some second_image))
         (snd (uploaded 1700000000002 picture one_widget))).

(** Widget and gadget added, then the widget deleted. *)
Definition gadget_only : World :=
  snd (deleteProduct whoami
         (request admin_header [("productId", JNum (of_int 1))] None)
         two_products).

(** The widget, with a second upload waiting on disk. *)
Definition widget_and_upload : World :=
  snd (uploaded 1700000000002 thumbnail one_widget).

(** The widget, its picture lost from the disk. *)
Definition widget_without_file : World := with_fs ∅ one_widget.

Definition delete_one (header : JsVal) : Request :=
  request header [("productId", JNum (of_int 1))] None.

Definition bodiless : Request :=
  {| authorization := admin_header; body := JUndefined; file := None;
     params_id := "" |}.

Lemma shopper_not_admin (fields : list (string * JsVal)) (upload : option File)
    (w : World) :
  users w = registered ->
  ~ admin_request whoami (request (JStr "Bearer shopper") fields upload) w.
Proof.
  intros Hw (u & (userData & tok & Hf & Hp & Hu) & Ha).
  simpl in Hf. injection Hf as <-. simpl in Hp. injection Hp as <-.
  simpl in Hu. rewrite Hw in Hu. vm_compute in Hu. injection Hu as <-.
  discriminate Ha.
Defined.

Lemma delete_update_reject_unauthorized_witness :
  deleteProduct whoami (delete_one (JStr "Bearer shopper")) one_widget
    = (Sent {| status := 403;
               sent := Text "No tiene permisos para eliminar productos" |},
       one_widget)
  /\ updateProduct whoami StringToNumber ObjectToNumber (delete_one JUndefined)
       one_widget
     = (Sent {| status := 401;
                sent := Text "Token inválido o usuario no autenticado" |},
        one_widget).
Proof.
  split.
  - apply (proj2 (delete_update_reject_unauthorized whoami StringToNumber
                    ObjectToNumber (delete_one (JStr "Bearer shopper"))
                    one_widget) shopper).
    + exists (JObject [("token", JStr "t-shopper")]), (JStr "t-shopper").
      repeat split.
    + reflexivity.
  - apply (proj1 (delete_update_reject_unauthorized whoami StringToNumber
                    ObjectToNumber (delete_one JUndefined) one_widget)
             401 None).
    + reflexivity.
    + discriminate.
Defined.

Lemma broken_request_is_500_witness :
  addProduct whoami bodiless one_widget
    = (Sent {| status := 500; sent := Text "Error interno del servidor" |},
       one_widget)
  /\ deleteProduct whoami bodiless one_widget
    = (Sent {| status := 500; sent := Text "Error interno del servidor" |},
       one_widget)
  /\ updateProduct whoami StringToNumber ObjectToNumber bodiless one_widget
    = (Sent {| status := 500; sent := Text "Error interno del servidor" |},
       one_widget).
Proof.
  apply (broken_request_is_500 whoami StringToNumber ObjectToNumber bodiless
           one_widget).
  right. right. right. split; [|reflexivity].
  exists admin. split; [|reflexivity].
  exists (JObject [("token", JStr "t-admin")]), (JStr "t-admin").
  repeat split.
Defined.

Lemma mutation_requires_admin_witness :
  snd (deleteProduct whoami (delete_one (JStr "Bearer shopper")) one_widget)
    = one_widget
  /\ refused (fst (deleteProduct whoami (delete_one (JStr "Bearer shopper"))
                     one_widget)).
Proof.
  apply (mutation_requires_admin whoami StringToNumber ObjectToNumber
           (delete_one (JStr "Bearer shopper")) one_widget).
  now apply shopper_not_admin.
Defined.

Lemma addProduct_admin_decision_witness :
  status_of (fst (addProduct whoami (request admin_header widget None) one_widget))
    = Some 400
  /\ status_of (fst (addProduct whoami
                       (request admin_header gadget (Some second_image))
                       one_widget))
     = Some 201.
Proof.
  split.
  - exact (proj1 (addProduct_admin_decision whoami
                    (request admin_header widget None) one_widget widget
                    (demo_admin_request widget None one_widget eq_refl) eq_refl)).
  - exact (proj1 (addProduct_admin_decision whoami
                    (request admin_header gadget (Some second_image)) one_widget
                    gadget
                    (demo_admin_request gadget (Some second_image) one_widget
                       eq_refl) eq_refl)).
Defined.

(** A rename sent with a new image while the old image is missing. *)
Lemma updateProduct_partial_write_on_unlink_failure_witness :
  exists p,
    updateProduct whoami StringToNumber ObjectToNumber
      (request admin_header
         [("productId", JNum (of_int 1)); ("name", JStr "Renamed")]
         (Some second_image))
      widget_without_file
    = (Sent {| status := 500; sent := Text "Error interno del servidor" |},
       with_products (JsMap.set 1 p (products widget_without_file))
         widget_without_file)
    /\ name p = JStr "Renamed".
Proof.
  destruct (updateProduct_partial_write_on_unlink_failure whoami StringToNumber
              ObjectToNumber
              (request admin_header
                 [("productId", JNum (of_int 1)); ("name", JStr "Renamed")]
                 (Some second_image))
              widget_without_file (JNum (of_int 1)) (of_int 1) 1 widget_record
              (JStr "Renamed") JUndefined JUndefined JUndefined second_image)
    as (p & Hrun & Hname & _); try reflexivity.
  - now apply demo_admin_request.
  - exists p. split; [exact Hrun | exact Hname].
Defined.

(** The widget gets the thumbnail as its new image. *)
Lemma updateProduct_replaces_image_witness :
  exists p w',
    updateProduct whoami StringToNumber ObjectToNumber
      (request admin_header [("productId", JNum (of_int 1))] (Some second_image))
      widget_and_upload
    = (Sent {| status := 200; sent := ProductJson p |}, w')
    /\ imageUrl p = "src/uploads/1700000000002.png"
    /\ fs w' !! "src/uploads/1700000000001.png" = None
    /\ getProductById (lookup "1") w'
       = (Sent {| status := 200;
                  sent := ProductWithImageJson
                            {| product := p; image := "TWE=" |} |}, w').
Proof.
  destruct (updateProduct_replaces_image whoami StringToNumber ObjectToNumber
              (request admin_header [("productId", JNum (of_int 1))]
                 (Some second_image))
              widget_and_upload (JNum (of_int 1)) (of_int 1) 1 widget_record
              JUndefined JUndefined JUndefined JUndefined second_image
              picture (lookup "1"))
    as (p & w' & Hrun & _ & Hurl & Hfs & Hget & _); try reflexivity.
  - now apply demo_admin_request.
  - exists p, w'. split; [exact Hrun|]. split; [exact Hurl|]. split.
    + rewrite Hfs. reflexivity.
    + apply (Hget thumbnail); [discriminate | reflexivity].
Defined.

Lemma updateProduct_idempotent_witness :
  updateProduct whoami StringToNumber ObjectToNumber
    (request admin_header [("productId", JNum (of_int 1)); ("price", JStr "12")]
       None)
    (snd (updateProduct whoami StringToNumber ObjectToNumber
            (request admin_header
               [("productId", JNum (of_int 1)); ("price", JStr "12")] None)
            one_widget))
  = updateProduct whoami StringToNumber ObjectToNumber
      (request admin_header [("productId", JNum (of_int 1)); ("price", JStr "12")]
         None)
      one_widget.
Proof.
  apply (updateProduct_idempotent whoami StringToNumber ObjectToNumber
           (request admin_header
              [("productId", JNum (of_int 1)); ("price", JStr "12")] None)
           one_widget (JNum (of_int 1)) (of_int 1) 1 widget_record);
    try reflexivity.
  now apply demo_admin_request.
Defined.

(** The widget named by the string "1": not found by [deleteProduct], found
    by [updateProduct]. *)
Lemma deleteProduct_non_number_id_witness :
  deleteProduct whoami (request admin_header [("productId", JStr "1")] None)
    one_widget
    = (Sent {| status := 404; sent := Text "Producto no encontrado" |}, one_widget)
  /\ status_of
       (fst (updateProduct whoami decimal_to_number ObjectToNumber
               (request admin_header [("productId", JStr "1")] None) one_widget))
     = Some 200.
Proof.
  destruct (deleteProduct_non_number_id whoami decimal_to_number ObjectToNumber
              (request admin_header [("productId", JStr "1")] None) one_widget
              (JStr "1")) as [Hdelete Hupdate]; try reflexivity.
  - now apply demo_admin_request.
  - discriminate.
  - split; [exact Hdelete|].
    apply (Hupdate (of_int 1) 1 widget_record); reflexivity.
Defined.

Lemma deleted_product_is_gone_witness :
  deleteProduct whoami (delete_one admin_header)
    (snd (deleteProduct whoami (delete_one admin_header) one_widget))
  = (Sent {| status := 404; sent := Text "Producto no encontrado" |},
     snd (deleteProduct whoami (delete_one admin_header) one_widget)).
Proof.
  refine (proj1 (deleted_product_is_gone whoami StringToNumber ObjectToNumber
                   (delete_one admin_header) one_widget (JNum (of_int 1)) 1
                   widget_record (delete_one admin_header) _ _ _ _)).
  - now apply demo_admin_request.
  - constructor; [reflexivity | constructor].
  - reflexivity.
  - reflexivity.
Defined.

(** In the shop that holds the gadget alone, under ID 2, the gizmo takes ID 2
    as well and the shop still holds one product. *)
Lemma addProduct_fresh_or_overwrite_witness :
  exists p,
    fst (addProduct whoami (request admin_header gizmo (Some third_image))
           gadget_only)
      = Sent {| status := 201; sent := ProductJson p |}
    /\ name p = JStr "Gizmo"
    /\ JsMap.get 2 (products gadget_only) = Some gadget_record
    /\ JsMap.size
         (products (snd (addProduct whoami
                           (request admin_header gizmo (Some third_image))
                           gadget_only)))
       = JsMap.size (products gadget_only).
Proof.
  destruct (addProduct_fresh_or_overwrite whoami
              (request admin_header gizmo (Some third_image)) gadget_only
              (JStr "Gizmo") (JStr "A gizmo") (JStr "30") (JStr "2") third_image)
    as (p & Hrun & _ & _ & _ & Hover); try reflexivity.
  - now apply demo_admin_request.
  - exists p. split; [exact Hrun|]. split.
    + vm_compute in Hrun. now injection Hrun as <-.
    + split; [reflexivity|]. apply (Hover gadget_record). reflexivity.
Defined.

Lemma addProduct_dense_no_collision_witness :
  exists p,
    fst (addProduct whoami (request admin_header gadget (Some second_image))
           one_widget)
      = Sent {| status := 201; sent := ProductJson p |}
    /\ id p = 2
    /\ dense 2
         (products (snd (addProduct whoami
                           (request admin_header gadget (Some second_image))
                           one_widget))).
Proof.
  destruct (addProduct_dense_no_collision whoami
              (request admin_header gadget (Some second_image)) one_widget 1
              (JStr "Gadget") (JStr "A gadget") (JStr "20") (JStr "1")
              second_image)
    as (p & Hrun & Hid & _ & Hdense & _); try reflexivity.
  - now apply demo_admin_request.
  - exists p. split; [exact Hrun|]. split; [exact Hid | exact Hdense].
Defined.

(** Widget and gadget, the widget deleted, the gizmo added: the gizmo gets
    the gadget's ID 2, and one product is left. *)
Lemma delete_then_add_reuses_id_witness :
  exists p,
    fst (addProduct whoami (request admin_header gizmo (Some third_image))
           gadget_only)
      = Sent {| status := 201; sent := ProductJson p |}
    /\ id p = 2
    /\ JsMap.get 2 (products gadget_only) <> None
    /\ JsMap.size
         (products (snd (addProduct whoami
                           (request admin_header gizmo (Some third_image))
                           gadget_only)))
       = 1.
Proof.
  destruct (delete_then_add_reuses_id whoami (delete_one admin_header)
              (request admin_header gizmo (Some third_image)) two_products 2 1
              (JStr "Gizmo") (JStr "A gizmo") (JStr "30") (JStr "2") third_image)
    as (p & _ & Hrun & Hid & _ & Hcollide); try reflexivity.
  - lia.
  - now apply demo_admin_request.
  - now apply demo_admin_request.
  - destruct Hcollide as (_ & Hthere & Hsize); [lia|].
    exists p. split; [exact Hrun|]. split; [exact Hid|].
    split; [exact Hthere | exact Hsize].
Defined.

Lemma run_keeps_catalogue_sound_witness :
  let w :=
    run whoami StringToNumber ObjectToNumber
      [AddProduct (request admin_header widget (Some first_image));
       AddProduct (request admin_header gadget (Some second_image));
       DeleteProduct (delete_one admin_header);
       Disk (fun _ => ∅);
       AddProduct (request admin_header gizmo (Some third_image));
       UpdateProduct
         (request admin_header
            [("productId", JNum (of_int 2)); ("price", JStr "12")] None);
       GetProducts (lookup "");
       GetProductById (lookup "2")]
      empty_shop in
  store_ok (products w) /\ ids_match (products w) /\ users w = registered.
Proof.
  apply (run_keeps_catalogue_sound whoami StringToNumber ObjectToNumber _
           empty_shop).
  - apply store_ok_empty.
  - constructor.
Defined.

Lemma getProductById_ignores_trailing_text_witness :
  getProductById (lookup "1abc") one_widget = getProductById (lookup "1") one_widget.
Proof.
  apply (getProductById_ignores_trailing_text (lookup "1") (lookup "1abc")
           one_widget 1 "a"%char "bc"); try reflexivity; discriminate.
Defined.

Lemma read_handlers_agree_witness :
  exists content listing,
    fs one_widget !! imageUrl widget_record = Some content
    /\ getProductById (lookup "1") one_widget
       = (Sent {| status := 200;
                  sent := ProductWithImageJson
                            {| product := widget_record;
                               image := base64 content |} |}, one_widget)
    /\ getProducts (lookup "") one_widget
       = (Sent {| status := 200; sent := ProductArrayJson listing |}, one_widget)
    /\ {| product := delete_imageLink widget_record; image := base64 content |}
         ∈ listing
    /\ base64_decode (base64 content) = Some content.
Proof.
  apply (read_handlers_agree (lookup "1") (lookup "") one_widget [picture] 1
           widget_record); try reflexivity.
  repeat constructor.
Defined.

Lemma getProducts_listing_witness :
  exists listing,
    getProducts (lookup "") two_products
      = (Sent {| status := 200; sent := ProductArrayJson listing |}, two_products)
    /\ map (fun e => id (product e)) listing = [1; 2].
Proof.
  destruct (getProducts_listing (lookup "") two_products [picture; picture])
    as (listing & Hrun & _ & Hids & _).
  - repeat constructor.
  - exists listing. split; [exact Hrun | exact Hids].
Defined.

Lemma getProductById_found_witness :
  getProductById (lookup "1") one_widget
    = (Sent {| status := 200;
               sent := ProductWithImageJson
                         {| product := widget_record; image := "TWFu" |} |},
       one_widget)
  /\ getProductById (lookup "1") widget_without_file
     = (Uncaught (ENOENT "src/uploads/1700000000001.png"), widget_without_file).
Proof.
  split.
  - apply (proj1 (getProductById_found (lookup "1") one_widget 1 widget_record
                    eq_refl eq_refl) picture).
    reflexivity.
  - apply (proj2 (getProductById_found (lookup "1") widget_without_file 1
                    widget_record eq_refl eq_refl)).
    reflexivity.
Defined.
